(** * Customer segmentation dashboard (app.py): a shallow embedding

    The script reads an uploaded table, lets the user pick two numeric
    columns, a cluster count and a seed, standardizes the two columns,
    clusters the rows, and renders a scatter plot, a per-cluster summary and
    one interpretation line per cluster.

    Conventions of the embedding:
    - float64 / int64 cell values are exact rationals ([Q]); comparisons are
      decided with [Qcompare], equalities between computed numbers are stated
      with [==].  The rounding of binary64 arithmetic and the cells that are
      not finite numbers (NaN for a missing cell, infinities) are outside
      the embedding: a statement about sums, means or quotients is about
      their exact values;
    - a script run is a computation in a small output-and-exception monad:
      every [st.*] call appends an element to the rendered page, a raised
      Python exception stops the run and stays uncaught (the script has no
      [try]);
    - pandas, Streamlit and matplotlib calls are embedded by the part of their
      behaviour the script relies on; the two scikit-learn estimators have no
      source in this repository and are modelled from the specification
      (their definitions say so). *)

From Stdlib Require Import String QArith ZArith List Bool Arith Lia Sorted.
From Stdlib Require Import Setoid Morphisms Lqa.
Import ListNotations.

Local Open Scope string_scope.
Local Open Scope Q_scope.

(* ------------------------------------------------------------------ *)
(** ** Numbers *)

Module Num.

(** [a > b] on numbers, as Python evaluates it. *)
Definition gtb (a b : Q) : bool :=
  match a ?= b with Gt => true | _ => false end.

(** [a < b] on numbers. *)
Definition ltb (a b : Q) : bool :=
  match a ?= b with Lt => true | _ => false end.

Definition of_nat (n : nat) : Q := inject_Z (Z.of_nat n).

Definition sum (l : list Q) : Q := fold_right Qplus 0 l.

(** [Series.mean()] / [np.mean]: the sum divided by the number of values,
    exact (not rounded to binary64). *)
Definition mean (l : list Q) : Q := sum l / of_nat (length l).

End Num.

(* ------------------------------------------------------------------ *)
(** ** Data frames *)

(** A column and its dtype.  [read_csv] yields [Numeric] (int64, float64) or
    [Other] (object, bool, ...) columns; [Int32] is the dtype of the label
    array returned by [fit_predict].  The cells of a [Numeric] column are
    finite numbers. *)
Inductive column : Type :=
| Numeric (vals : list Q)
| Int32 (ids : list nat)
| Other (cells : list string).

Definition column_length (c : column) : nat :=
  match c with
  | Numeric vals => length vals
  | Int32 ids => length ids
  | Other cells => length cells
  end.

(** [index] is the number of rows, [columns] the named columns in file
    order. *)
Record DataFrame : Type := {
  index : nat;
  columns : list (string * column)
}.

Definition column_names (df : DataFrame) : list string :=
  map fst (columns df).

(** What [read_csv] guarantees: distinct column names, every column as long
    as the index. *)
Definition well_formed (df : DataFrame) : Prop :=
  NoDup (column_names df) /\
  Forall (fun nc => column_length (snd nc) = index df) (columns df).

Inductive exn : Type :=
| KeyError (missing : list (option string))
| ValueError (why : string)
| TypeError (why : string).

(** Result of a library call that may raise. *)
Definition result (A : Type) : Type := (exn + A)%type.

Fixpoint lookup (name : string) (cols : list (string * column)) : option column :=
  match cols with
  | [] => None
  | (n, c) :: rest => if String.eqb n name then Some c else lookup name rest
  end.

(** [df.select_dtypes(include=["int64", "float64"]).columns.tolist()] *)
Definition is_int64_or_float64 (c : column) : bool :=
  match c with Numeric _ => true | _ => false end.

Definition select_dtypes (df : DataFrame) : list string :=
  map fst (filter (fun nc => is_int64_or_float64 (snd nc)) (columns df)).

(** [df[key]] where [key] may be [None] (an empty select box). *)
Definition getitem (df : DataFrame) (key : option string) : result column :=
  match key with
  | None => inl (KeyError [None])
  | Some name =>
      match lookup name (columns df) with
      | Some c => inr c
      | None => inl (KeyError [key])
      end
  end.

Definition is_missing (df : DataFrame) (key : option string) : bool :=
  match getitem df key with inl _ => true | inr _ => false end.

(** [df[[key1, key2]]]: the two columns, or a KeyError listing the keys that
    are not column names. *)
Definition getitem2 (df : DataFrame) (key1 key2 : option string)
  : result (column * column) :=
  match getitem df key1, getitem df key2 with
  | inr c1, inr c2 => inr (c1, c2)
  | _, _ => inl (KeyError (filter (is_missing df) [key1; key2]))
  end.

Fixpoint replace_or_append (name : string) (c : column)
    (cols : list (string * column)) : list (string * column) :=
  match cols with
  | [] => [(name, c)]
  | (n, c0) :: rest =>
      if String.eqb n name then (n, c) :: rest
      else (n, c0) :: replace_or_append name c rest
  end.

(** [df[name] = values]: overwrites the column of that name when there is
    one, appends a new column otherwise. *)
Definition setitem (df : DataFrame) (name : string) (c : column)
  : result DataFrame :=
  if Nat.eqb (column_length c) (index df)
  then inr {| index := index df;
              columns := replace_or_append name c (columns df) |}
  else inl (ValueError "Length of values does not match length of index").

(** The numbers held by a column, for arithmetic on it. *)
Definition to_numeric (c : column) : result (list Q) :=
  match c with
  | Numeric vals => inr vals
  | Int32 ids => inr (map Num.of_nat ids)
  | Other _ => inl (ValueError "could not convert string to float")
  end.

(* ------------------------------------------------------------------ *)
(** ** Cluster summary: [df.groupby("Cluster").agg(...).reset_index()] *)

Record SummaryRow : Type := {
  Cluster : nat;
  Count : nat;
  Avg_Feature_1 : Q;
  Avg_Feature_2 : Q
}.

(** Group keys: the distinct values of the key column, sorted ascending
    (groupby's default [sort=True]). *)
Fixpoint insert_key (c : nat) (keys : list nat) : list nat :=
  match keys with
  | [] => [c]
  | x :: rest =>
      if Nat.ltb c x then c :: keys
      else if Nat.eqb c x then keys
      else x :: insert_key c rest
  end.

Definition group_keys (ids : list nat) : list nat :=
  fold_right insert_key [] ids.

(** The values of [vals] on the rows whose key is [c]. *)
Definition group_values {A : Type} (c : nat) (ids : list nat) (vals : list A)
  : list A :=
  map snd (filter (fun p => Nat.eqb (fst p) c) (combine ids vals)).

Definition agg (ids : list nat) (v1 v2 : list Q) : list SummaryRow :=
  map (fun c =>
         {| Cluster := c;
            Count := length (group_values c ids ids);
            Avg_Feature_1 := Num.mean (group_values c ids v1);
            Avg_Feature_2 := Num.mean (group_values c ids v2) |})
      (group_keys ids).

Definition groupby_agg (df : DataFrame) (by_ : string)
    (feature_1 feature_2 : option string) : result (list SummaryRow) :=
  match getitem df (Some by_) with
  | inl e => inl e
  | inr (Int32 ids) =>
      match getitem df feature_1, getitem df feature_2 with
      | inr c1, inr c2 =>
          match to_numeric c1, to_numeric c2 with
          | inr v1, inr v2 => inr (agg ids v1 v2)
          | inl e, _ => inl e
          | _, inl e => inl e
          end
      | inl e, _ => inl e
      | _, inl e => inl e
      end
  | inr _ => inl (TypeError "group key is not a label column")
  end.

(* ------------------------------------------------------------------ *)
(** ** Business interpretation *)

Definition high_spending : string :=
  "High-spending customers across multiple categories".
Definition budget_conscious : string :=
  "Budget-conscious customers with low annual spend".
Definition moderate : string :=
  "Moderate spenders with selective purchasing behavior".

(** The body of the loop over [summary.iterrows()] for one [row]: both
    column means are taken over the summary table itself. *)
Definition interpretation (summary : list SummaryRow) (row : SummaryRow)
  : nat * string :=
  let cid := Cluster row in
  let msg :=
    if Num.gtb (Avg_Feature_1 row) (Num.mean (map Avg_Feature_1 summary))
       && Num.gtb (Avg_Feature_2 row) (Num.mean (map Avg_Feature_2 summary))
    then high_spending
    else if Num.ltb (Avg_Feature_1 row) (Num.mean (map Avg_Feature_1 summary))
            && Num.ltb (Avg_Feature_2 row) (Num.mean (map Avg_Feature_2 summary))
    then budget_conscious
    else moderate in
  (cid, msg).

Definition interpretations (summary : list SummaryRow) : list (nat * string) :=
  map (interpretation summary) summary.

(* ------------------------------------------------------------------ *)
(** ** The rendered page and the run monad *)

Definition point : Type := (Q * Q)%type.

(** The matplotlib figure: the scatter of the rows coloured by cluster id,
    the overlay of the cluster centers, the axis labels. *)
Record Figure : Type := {
  scatter_x : list Q;
  scatter_y : list Q;
  scatter_c : list nat;
  centers : list point;
  xlabel : option string;
  ylabel : option string
}.

Inductive element : Type :=
| warning (text : string)
| sidebar_header (text : string)
| sidebar_selectbox (label : string) (options : list string)
| sidebar_slider (label : string) (min_value max_value : nat)
| sidebar_number_input (label : string)
| sidebar_button (label : string)
| subheader (text : string)
| pyplot (fig : Figure)
| dataframe (summary : list SummaryRow)
| write (cid : nat) (msg : string)
| info (text : string).

(** A run: what was rendered so far, and either the exception that stopped
    the script or a value. *)
Definition App (A : Type) : Type := (list element * result A)%type.

Definition ret {A : Type} (a : A) : App A := ([], inr a).

Definition bind {A B : Type} (m : App A) (k : A -> App B) : App B :=
  match m with
  | (out, inl e) => (out, inl e)
  | (out, inr a) => let (out', r) := k a in ((out ++ out')%list, r)
  end.

Definition show (el : element) : App unit := ([el], inr tt).

(** A library call: renders nothing, may raise. *)
Definition call {A : Type} (r : result A) : App A := ([], r).

Notation "x <- m ;; k" := (bind m (fun x => k))
  (at level 61, m at next level, right associativity).
Notation "' pat <- m ;; k" := (bind m (fun x => match x with pat => k end))
  (at level 61, pat pattern, m at next level, right associativity).
Notation "m ;;; k" := (bind m (fun _ => k))
  (at level 61, right associativity).

Fixpoint for_each {A : Type} (l : list A) (body : A -> App unit) : App unit :=
  match l with
  | [] => ret tt
  | a :: rest => body a ;;; for_each rest body
  end.

Definition rendered {A : Type} (run : App A) : list element := fst run.

Definition raised {A : Type} (run : App A) : option exn :=
  match snd run with inl e => Some e | inr _ => None end.

(* ------------------------------------------------------------------ *)
(** ** Sidebar widgets *)

(** The state of the sidebar controls in the user's session. *)
Record Widgets : Type := {
  chosen_1 : nat;        (* entry chosen in "Select Feature 1" *)
  chosen_2 : nat;        (* entry chosen in "Select Feature 2" *)
  slider_position : nat; (* position of the K slider *)
  seed_field : Z;        (* content of the random state field *)
  run_pressed : bool     (* whether this run was triggered by the button *)
}.

(** A select box returns the chosen option, the first option when the stored
    choice is not in the list, and [None] when there is no option at all. *)
Definition selected (options : list string) (chosen : nat) : option string :=
  match nth_error options chosen with
  | Some o => Some o
  | None => hd_error options
  end.

Definition selectbox (label : string) (options : list string) (chosen : nat)
  : App (option string) :=
  show (sidebar_selectbox label options) ;;;
  ret (selected options chosen).

(** A slider returns a value between its bounds. *)
Definition slider (label : string) (min_value max_value position : nat)
  : App nat :=
  show (sidebar_slider label min_value max_value) ;;;
  ret (Nat.max min_value (Nat.min max_value position)).

Definition number_input (label : string) (content : Z) : App Z :=
  show (sidebar_number_input label) ;;; ret content.

Definition button (label : string) (pressed : bool) : App bool :=
  show (sidebar_button label) ;;; ret pressed.

Definition option_string_eqb (a b : option string) : bool :=
  match a, b with
  | Some x, Some y => String.eqb x y
  | None, None => true
  | _, _ => false
  end.

(* ------------------------------------------------------------------ *)
(** ** A concrete engine policy, to run the embedding on examples *)

Module Reference.

(** Square root of [n/d] as the integer square root of [n*d] over [d]:
    exact on the squares of rationals, rounded down otherwise. *)
Definition sqrt (q : Q) : Q :=
  Qmake (Z.sqrt (Qnum q * Zpos (Qden q))%Z) (Qden q).

Fixpoint rotate {A : Type} (n : nat) (l : list A) : list A :=
  match n with
  | O => l
  | S n' => match l with
            | [] => []
            | a :: rest => rotate n' (rest ++ [a])%list
            end
  end.

(** Initial centroids: [K] input points, starting at a position drawn from
    the generator state. *)
Definition init (rng : Z) (K : nat) (X : list point) : list point :=
  firstn K (rotate (Z.to_nat (Z.abs rng) mod length X)%nat X).

Definition max_iter : nat := 300.

End Reference.

(* ------------------------------------------------------------------ *)
(** ** Example uploads and widget states *)

Module Examples.

(** The six customers of the specification's end-to-end scenario, with a
    text column in front. *)
Definition customers : DataFrame :=
  {| index := 6;
     columns :=
       [ ("name", Other ["a"; "b"; "c"; "d"; "e"; "f"]);
         ("spend", Numeric [10; 12; 11; 90; 95; 88]);
         ("visits", Numeric [1; 1; 2; 80; 82; 79]) ] |}.

(** Four shoppers whose two columns have standard deviation 5. *)
Definition shoppers : DataFrame :=
  {| index := 4;
     columns :=
       [ ("name", Other ["a"; "b"; "c"; "d"]);
         ("spend", Numeric [0; 6; 8; 14]);
         ("visits", Numeric [1; 7; 9; 15]) ] |}.

(** K = 2, seed 42, first entries of both select boxes, button pressed. *)
Definition widgets : Widgets :=
  {| chosen_1 := 0; chosen_2 := 0; slider_position := 2;
     seed_field := 42; run_pressed := true |}.

(** Other stored positions that yield the same features, K and seed. *)
Definition widgets_stale : Widgets :=
  {| chosen_1 := 7; chosen_2 := 5; slider_position := 1;
     seed_field := 42; run_pressed := true |}.

(** A single customer: fewer rows than the smallest K. *)
Definition single_customer : DataFrame :=
  {| index := 1;
     columns := [ ("spend", Numeric [10]); ("visits", Numeric [1]) ] |}.

(** Only one numeric column. *)
Definition one_numeric : DataFrame :=
  {| index := 3;
     columns := [ ("name", Other ["a"; "b"; "c"]);
                  ("spend", Numeric [10; 12; 11]) ] |}.

(** Two customers with the same values and a third one, K = 3. *)
Definition twins : DataFrame :=
  {| index := 3;
     columns := [ ("spend", Numeric [1; 1; 5]); ("visits", Numeric [1; 1; 5]) ] |}.

Definition widgets_3 : Widgets :=
  {| chosen_1 := 0; chosen_2 := 0; slider_position := 3;
     seed_field := 0; run_pressed := true |}.

(** The two numeric columns of [shoppers] as a matrix. *)
Definition spend : list Q := [0; 6; 8; 14].
Definition visits : list Q := [1; 7; 9; 15].
Definition matrix : list point := combine spend visits.

(** An upload that already has a numeric column named "Cluster". *)
Definition relabelled : DataFrame :=
  {| index := 4;
     columns := [ ("Cluster", Numeric [0; 6; 8; 14]);
                  ("visits", Numeric [1; 7; 9; 15]) ] |}.

(** Four shoppers with the same number of visits. *)
Definition same_visits : DataFrame :=
  {| index := 4;
     columns := [ ("spend", Numeric [0; 6; 8; 14]);
                  ("visits", Numeric [5; 5; 5; 5]) ] |}.

(** Two customers with the same values. *)
Definition identical : DataFrame :=
  {| index := 2;
     columns := [ ("spend", Numeric [3; 3]); ("visits", Numeric [4; 4]) ] |}.

(** A summary of two clusters, the first above the second on both features. *)
Definition two_cluster_summary : list SummaryRow :=
  [ {| Cluster := 0; Count := 1; Avg_Feature_1 := 10; Avg_Feature_2 := 10 |};
    {| Cluster := 1; Count := 1; Avg_Feature_1 := 2; Avg_Feature_2 := 2 |} ].

(** Cluster ids and a feature column with clusters of unequal size. *)
Definition uneven_ids : list nat := [0; 0; 0; 1]%nat.
Definition uneven_vals : list Q := [0; 0; 0; 4].

End Examples.

(* ------------------------------------------------------------------ *)
(** ** The clustering engine and the script *)

Section Dashboard.

(** The engine's numeric and internal policy: the square root used for the
    standard deviation, the choice of the initial centroids from a random
    generator state, and the iteration cap. *)
Variable sqrt : Q -> Q.
Variable init : Z -> nat -> list point -> list point.
Variable max_iter : nat.

(** *** StandardScaler *)

(** Modelled from the spec: [sklearn.preprocessing.StandardScaler], which
    has no source in this repository.  "Standardize each of the two columns
    independently: subtract the column mean, divide by the column standard
    deviation (population, not sample)"; "reversing the standardization
    (multiply by each column's standard deviation, add back each column's
    mean)". *)
Record StandardScaler : Type := {
  mean_ : Q * Q;
  scale_ : Q * Q
}.

(** Modelled from the spec: the variance behind the "column standard
    deviation (population, not sample)": the mean of the squared deviations
    from the column mean. *)
Definition variance (col : list Q) : Q :=
  Num.mean (map (fun x => (x - Num.mean col) * (x - Num.mean col)) col).

(** Modelled from the spec: the "column standard deviation". *)
Definition std (col : list Q) : Q := sqrt (variance col).

(** Modelled from the spec: [StandardScaler.fit], the mean and the
    standard deviation of each column. *)
Definition fit (X : list point) : StandardScaler :=
  {| mean_ := (Num.mean (map fst X), Num.mean (map snd X));
     scale_ := (std (map fst X), std (map snd X)) |}.

(** Modelled from the spec: [StandardScaler.transform], "subtract the
    column mean, divide by the column standard deviation".  On a constant
    column the standard deviation is zero and the quotient of [Q] by zero is
    zero: the standardized column is zero throughout. *)
Definition transform (scaler : StandardScaler) (X : list point) : list point :=
  map (fun p => ((fst p - fst (mean_ scaler)) / fst (scale_ scaler),
                 (snd p - snd (mean_ scaler)) / snd (scale_ scaler))) X.

(** Modelled from the spec: [StandardScaler.inverse_transform], "multiply
    by each column's standard deviation, add back each column's mean". *)
Definition inverse_transform (scaler : StandardScaler) (C : list point)
  : list point :=
  map (fun c => (fst c * fst (scale_ scaler) + fst (mean_ scaler),
                 snd c * snd (scale_ scaler) + snd (mean_ scaler))) C.

(** The two-column frame as the numeric matrix the estimators work on. *)
Definition as_matrix (X : column * column) : result (list point) :=
  match to_numeric (fst X), to_numeric (snd X) with
  | inr v1, inr v2 => inr (combine v1 v2)
  | inl e, _ => inl e
  | _, inl e => inl e
  end.

(** Modelled from the spec: [StandardScaler.fit_transform], the statistics
    of the matrix and the matrix standardized with them. *)
Definition fit_transform (X : column * column)
  : result (StandardScaler * list point) :=
  match as_matrix X with
  | inl e => inl e
  | inr M => inr (fit M, transform (fit M) M)
  end.

(** *** KMeans *)

(** Modelled from the spec: "Euclidean distance in standardized space",
    squared (the nearest centroid is the same as for the distance itself). *)
Definition dist2 (p c : point) : Q :=
  (fst p - fst c) * (fst p - fst c) + (snd p - snd c) * (snd p - snd c).

(** Modelled from the spec: the "nearest of K centroids", by a scan of the
    centroids from position [j] on, [best] being the nearest one so far at
    squared distance [best_d]; a tie keeps the earlier one. *)
Fixpoint nearest_from (p : point) (cs : list point) (j best : nat)
    (best_d : Q) : nat :=
  match cs with
  | [] => best
  | c :: rest =>
      if Num.ltb (dist2 p c) best_d
      then nearest_from p rest (S j) j (dist2 p c)
      else nearest_from p rest (S j) best best_d
  end.

(** Modelled from the spec: the position of the centroid nearest to [p]. *)
Definition nearest (p : point) (cs : list point) : nat :=
  match cs with
  | [] => O
  | c :: rest => nearest_from p rest 1 0 (dist2 p c)
  end.

(** Modelled from the spec: "assign each point to its nearest of K
    centroids". *)
Definition assign (X cs : list point) : list nat :=
  map (fun p => nearest p cs) X.

(** Modelled from the spec: "the mean of assigned points". *)
Definition centroid (pts : list point) : point :=
  (Num.mean (map fst pts), Num.mean (map snd pts)).

(** Modelled from the spec: "recompute centroids as the mean of assigned
    points"; a centroid no point is assigned to stays where it is (the
    specification allows empty cluster ids and says nothing more). *)
Definition update (X : list point) (labels : list nat) (cs : list point)
  : list point :=
  map (fun jc => match group_values (fst jc) labels X with
                 | [] => snd jc
                 | pts => centroid pts
                 end)
      (combine (seq 0 (length cs)) cs).

Definition labels_eqb (a b : list nat) : bool :=
  if list_eq_dec Nat.eq_dec a b then true else false.

(** Modelled from the spec: the iteration "until assignments stop changing
    or an iteration cap is reached"; [fuel] is what is left of the cap. *)
Fixpoint lloyd (fuel : nat) (X cs : list point) : list point :=
  match fuel with
  | O => cs
  | S fuel' =>
      let labels := assign X cs in
      let cs' := update X labels cs in
      if labels_eqb (assign X cs') labels then cs'
      else lloyd fuel' X cs'
  end.

(** Modelled from the spec: "determinism is guaranteed only when the same
    seed ... [is] reused": the generator the engine draws from is built from
    [random_state] when one is given, and is the process-wide generator
    otherwise. *)
Definition check_random_state (random_state : option Z) (np_random : Z) : Z :=
  match random_state with
  | Some seed => seed
  | None => np_random
  end.

(** Modelled from the spec: [sklearn.cluster.KMeans], which has no source
    in this repository.  "Iteratively assign each point to its nearest of K
    centroids (Euclidean distance in standardized space) and recompute
    centroids as the mean of assigned points, until assignments stop
    changing or an iteration cap is reached.  Initialization and iteration
    cap are the Clustering Engine's internal policy; determinism is
    guaranteed only when the same seed, K, and input are reused."
    "Errors: fails if K exceeds N."  The result is the label of every row
    ([labels_]) and the centroids ([cluster_centers_]). *)
Definition fit_predict (n_clusters : nat) (random_state : option Z)
    (np_random : Z) (X : list point) : result (list nat * list point) :=
  if Nat.ltb (length X) n_clusters
  then inl (ValueError "n_samples should be >= n_clusters")
  else
    let rng := check_random_state random_state np_random in
    let cs := lloyd max_iter X (init rng n_clusters X) in
    inr (assign X cs, cs).

(** The label column as cluster ids. *)
Definition to_labels (c : column) : result (list nat) :=
  match c with
  | Int32 ids => inr ids
  | _ => inl (TypeError "not a label column")
  end.

(** *** The script *)

(** Lines 170-260: the body of [if run_btn:]. *)
Definition run_clustering (df : DataFrame) (feature_1 feature_2 : option string)
    (k : nat) (random_state : Z) (np_random : Z) : App unit :=
  X <- call (getitem2 df feature_1 feature_2) ;;
  '(scaler, X_scaled) <- call (fit_transform X) ;;
  '(labels_, cluster_centers_) <-
     call (fit_predict k (Some random_state) np_random X_scaled) ;;
  df <- call (setitem df "Cluster" (Int32 labels_)) ;;
  show (subheader "Customer Clusters Visualization") ;;;
  c1 <- call (getitem df feature_1) ;;
  xs <- call (to_numeric c1) ;;
  c2 <- call (getitem df feature_2) ;;
  ys <- call (to_numeric c2) ;;
  cl <- call (getitem df (Some "Cluster")) ;;
  colours <- call (to_labels cl) ;;
  let centers := inverse_transform scaler cluster_centers_ in
  show (pyplot {| scatter_x := xs; scatter_y := ys; scatter_c := colours;
                  centers := centers;
                  xlabel := feature_1; ylabel := feature_2 |}) ;;;
  show (subheader "Cluster Summary") ;;;
  summary <- call (groupby_agg df "Cluster" feature_1 feature_2) ;;
  show (dataframe summary) ;;;
  show (subheader "Business Interpretation") ;;;
  for_each summary
    (fun row => let '(cid, msg) := interpretation summary row in
                show (write cid msg)) ;;;
  show (info "Customers in the same cluster exhibit similar purchasing behaviour and can be targeted with similar business strategies.").

(** Lines 132-263: one execution of the script.  [uploaded_file] is the
    parsed upload ([None] before any upload); the page title, the style
    sheet and the pictographs of the texts are left out. *)
Definition script (uploaded_file : option DataFrame) (ui : Widgets)
    (np_random : Z) : App unit :=
  match uploaded_file with
  | Some df =>
      let numeric_features := select_dtypes df in
      show (sidebar_header "Clustering Controls") ;;;
      feature_1 <- selectbox "Select Feature 1" numeric_features (chosen_1 ui) ;;
      feature_2 <- selectbox "Select Feature 2"
                     (filter (fun f => negb (option_string_eqb (Some f) feature_1))
                             numeric_features)
                     (chosen_2 ui) ;;
      k <- slider "Number of Clusters (K)" 2 10 (slider_position ui) ;;
      random_state <- number_input "Random State (Optional)" (seed_field ui) ;;
      run_btn <- button "Run Clustering" (run_pressed ui) ;;
      if run_btn
      then run_clustering df feature_1 feature_2 k random_state np_random
      else ret tt
  | None =>
      show (warning "Please upload a CSV dataset to begin clustering.")
  end.

(** *** The pages the script can render *)

(** The sidebar, rendered on every run that has an upload. *)
Definition sidebar_page (numeric_features : list string)
    (feature_1 : option string) : list element :=
  [ sidebar_header "Clustering Controls";
    sidebar_selectbox "Select Feature 1" numeric_features;
    sidebar_selectbox "Select Feature 2"
      (filter (fun f => negb (option_string_eqb (Some f) feature_1))
              numeric_features);
    sidebar_slider "Number of Clusters (K)" 2 10;
    sidebar_number_input "Random State (Optional)";
    sidebar_button "Run Clustering" ].

(** What a clustering run renders when it reaches its end. *)
Definition results_page (fig : Figure) (summary : list SummaryRow)
  : list element :=
  ([ subheader "Customer Clusters Visualization";
     pyplot fig;
     subheader "Cluster Summary";
     dataframe summary;
     subheader "Business Interpretation" ]
   ++ map (fun cm => write (fst cm) (snd cm)) (interpretations summary)
   ++ [ info "Customers in the same cluster exhibit similar purchasing behaviour and can be targeted with similar business strategies." ])%list.

(** The interpretation lines of a page, in page order. *)
Fixpoint written (page : list element) : list (nat * string) :=
  match page with
  | [] => []
  | write cid msg :: rest => (cid, msg) :: written rest
  | _ :: rest => written rest
  end.

(** The cluster id of every row, as the page's plot colours them. *)
Fixpoint assignments (page : list element) : option (list nat) :=
  match page with
  | [] => None
  | pyplot fig :: _ => Some (scatter_c fig)
  | _ :: rest => assignments rest
  end.

(** The summary table and the figure a page shows (empty when it shows
    none). *)
Fixpoint shown_summary (page : list element) : list SummaryRow :=
  match page with
  | [] => []
  | dataframe summary :: _ => summary
  | _ :: rest => shown_summary rest
  end.

Fixpoint shown_figure (page : list element) : Figure :=
  match page with
  | [] => {| scatter_x := []; scatter_y := []; scatter_c := []; centers := [];
             xlabel := None; ylabel := None |}
  | pyplot fig :: _ => fig
  | _ :: rest => shown_figure rest
  end.

(** Whether an element is a result of a clustering run. *)
Definition is_result (el : element) : bool :=
  match el with
  | pyplot _ | dataframe _ | write _ _ => true
  | _ => false
  end.

(** The values of the script's [feature_1], [feature_2] and [k]. *)
Definition selected_1 (df : DataFrame) (ui : Widgets) : option string :=
  selected (select_dtypes df) (chosen_1 ui).

Definition selected_2 (df : DataFrame) (ui : Widgets) : option string :=
  selected (filter (fun f => negb (option_string_eqb (Some f) (selected_1 df ui)))
                   (select_dtypes df))
           (chosen_2 ui).

Definition selected_k (ui : Widgets) : nat :=
  Nat.max 2 (Nat.min 10 (slider_position ui)).

(** *** The specification's formulations, to compare the code with *)

(** Mean of the per-cluster means: for each populated cluster id the mean of
    the feature over the cluster's rows, then the plain mean of those
    numbers. *)
Definition mean_of_cluster_means (ids : list nat) (vals : list Q) : Q :=
  Num.mean (map (fun c => Num.mean (group_values c ids vals)) (group_keys ids)).

(** The row-weighted global mean of a feature. *)
Definition row_weighted_mean (vals : list Q) : Q := Num.mean vals.



(** Standardization of one column by its own statistics: the population
    variance divides the sum of squared deviations by the number of
    values. *)
Definition population_variance (col : list Q) : Q :=
  Num.sum (map (fun x => (x - Num.mean col) * (x - Num.mean col)) col)
  / Num.of_nat (length col).

Definition standardize_column (col : list Q) : list Q :=
  map (fun x => (x - Num.mean col) / sqrt (population_variance col)) col.

(** Equality of points and matrices up to the value of the rationals. *)
Definition point_eq (p q : point) : Prop :=
  fst p == fst q /\ snd p == snd q.

Definition matrix_eq (A B : list point) : Prop := Forall2 point_eq A B.

(** A clustering run that reached its end, with the figure and the summary
    it rendered: the selected columns, the matrix built from them, the
    engine's result, the frame after [df["Cluster"] = ...], and what is
    read back from that frame. *)
Definition completed (df : DataFrame) (feature_1 feature_2 : option string)
    (k : nat) (random_state np_random : Z) (fig : Figure)
    (summary : list SummaryRow) : Prop :=
  exists c1 c2 M cluster_centers_ df' c1' c2',
    getitem2 df feature_1 feature_2 = inr (c1, c2) /\
    as_matrix (c1, c2) = inr M /\
    fit_predict k (Some random_state) np_random (transform (fit M) M)
      = inr (scatter_c fig, cluster_centers_) /\
    setitem df "Cluster" (Int32 (scatter_c fig)) = inr df' /\
    getitem df' feature_1 = inr c1' /\
    to_numeric c1' = inr (scatter_x fig) /\
    getitem df' feature_2 = inr c2' /\
    to_numeric c2' = inr (scatter_y fig) /\
    centers fig = inverse_transform (fit M) cluster_centers_ /\
    xlabel fig = feature_1 /\ ylabel fig = feature_2 /\
    summary = agg (scatter_c fig) (scatter_x fig) (scatter_y fig).

(* ---------------------------------------------------------------- *)
(** ** Group keys and group sizes *)

Lemma insert_key_In (c x : nat) (keys : list nat) :
  In x (insert_key c keys) <-> x = c \/ In x keys.
Proof.
  induction keys as [|y keys IH]; simpl.
  - intuition.
  - destruct (Nat.ltb_spec c y) as [Hlt|Hge]; simpl.
    + intuition.
    + destruct (Nat.eqb_spec c y) as [->|Hne]; simpl.
      * intuition.
      * rewrite IH. intuition.
Qed.

Lemma insert_key_sorted (c : nat) (keys : list nat) :
  StronglySorted lt keys -> StronglySorted lt (insert_key c keys).
Proof.
  induction 1 as [|y keys Hs IH Hall]; simpl.
  - repeat constructor.
  - destruct (Nat.ltb_spec c y) as [Hlt|Hge].
    + constructor; [constructor; assumption|].
      constructor; [assumption|].
      eapply Forall_impl; [|exact Hall]. intros z Hz. simpl in Hz. lia.
    + destruct (Nat.eqb_spec c y) as [->|Hne].
      * constructor; assumption.
      * constructor; [exact IH|].
        apply Forall_forall. intros z Hz.
        apply insert_key_In in Hz. destruct Hz as [->|Hz]; [lia|].
        rewrite Forall_forall in Hall. now apply Hall.
Qed.

Lemma group_keys_In (ids : list nat) (c : nat) :
  In c (group_keys ids) <-> In c ids.
Proof.
  induction ids as [|a ids IH]; simpl; [tauto|].
  rewrite insert_key_In, IH. intuition.
Qed.

Lemma group_keys_sorted (ids : list nat) :
  StronglySorted lt (group_keys ids).
Proof.
  induction ids as [|a ids IH]; simpl.
  - constructor.
  - now apply insert_key_sorted.
Qed.

Lemma sorted_lt_NoDup (l : list nat) : StronglySorted lt l -> NoDup l.
Proof.
  induction 1 as [|y l Hs IH Hall]; constructor; [|exact IH].
  intro Hin. rewrite Forall_forall in Hall. specialize (Hall _ Hin). lia.
Qed.

(** The size of a group is the number of occurrences of its key. *)
Lemma group_size (c : nat) (ids : list nat) :
  length (group_values c ids ids) = count_occ Nat.eq_dec ids c.
Proof.
  unfold group_values. rewrite length_map.
  induction ids as [|a ids IH]; simpl; [reflexivity|].
  destruct (Nat.eq_dec a c) as [Heq|Hne].
  - apply Nat.eqb_eq in Heq. rewrite Heq. simpl. now rewrite IH.
  - apply Nat.eqb_neq in Hne. rewrite Hne. exact IH.
Qed.

Lemma list_sum_pointwise (f g : nat -> nat) (l : list nat) :
  list_sum (map (fun c => f c + g c)%nat l)
  = (list_sum (map f l) + list_sum (map g l))%nat.
Proof.
  induction l as [|a l IH]; simpl; [reflexivity|]. rewrite IH. lia.
Qed.

Lemma list_sum_indicator (a : nat) (keys : list nat) :
  NoDup keys -> In a keys ->
  list_sum (map (fun c => if Nat.eq_dec a c then 1 else 0)%nat keys) = 1%nat.
Proof.
  induction 1 as [|y keys Hnin Hnd IH]; intros Hin; [destruct Hin|].
  simpl. destruct Hin as [->|Hin].
  - destruct (Nat.eq_dec a a) as [_|Hne]; [|congruence].
    assert (Hz : list_sum (map (fun c => if Nat.eq_dec a c then 1 else 0)%nat keys) = 0%nat).
    { clear IH Hnd. induction keys as [|z keys IHk]; simpl; [reflexivity|].
      destruct (Nat.eq_dec a z) as [->|Hne].
      - exfalso. apply Hnin. now left.
      - apply IHk. intro H. apply Hnin. now right. }
    rewrite Hz. reflexivity.
  - destruct (Nat.eq_dec a y) as [->|Hne]; [contradiction|].
    simpl. now apply IH.
Qed.

(** Counting the rows key by key counts every row once. *)
Lemma group_sizes_total (ids keys : list nat) :
  NoDup keys -> (forall x, In x ids -> In x keys) ->
  list_sum (map (fun c => count_occ Nat.eq_dec ids c) keys) = length ids.
Proof.
  intros Hnd. induction ids as [|a ids IH]; intros Hcover.
  - simpl. clear Hnd Hcover.
    induction keys as [|k keys IHk]; simpl; [reflexivity|exact IHk].
  - rewrite (map_ext _ (fun c => (if Nat.eq_dec a c then 1 else 0)
                                 + count_occ Nat.eq_dec ids c)%nat).
    + rewrite list_sum_pointwise.
      rewrite list_sum_indicator by (auto; apply Hcover; now left).
      simpl. f_equal. apply IH.
      intros x Hx. apply Hcover. now right.
    + intros c. simpl. destruct (Nat.eq_dec a c); reflexivity.
Qed.

Lemma agg_Cluster (ids : list nat) (v1 v2 : list Q) :
  map Cluster (agg ids v1 v2) = group_keys ids.
Proof.
  unfold agg. rewrite map_map. simpl. apply map_id.
Qed.

Lemma agg_Count_total (ids : list nat) (v1 v2 : list Q) :
  list_sum (map Count (agg ids v1 v2)) = length ids.
Proof.
  unfold agg. rewrite map_map. simpl.
  rewrite (map_ext _ (fun c => count_occ Nat.eq_dec ids c)).
  - apply group_sizes_total.
    + apply sorted_lt_NoDup, group_keys_sorted.
    + intros x Hx. now apply group_keys_In.
  - intros c. apply group_size.
Qed.

(* ---------------------------------------------------------------- *)
(** ** What a run renders *)

Lemma for_each_show {A : Type} (f : A -> element) (l : list A) :
  for_each l (fun a => show (f a)) = (map f l, inr tt).
Proof.
  induction l as [|a l IH]; simpl; [reflexivity|].
  rewrite IH. reflexivity.
Qed.

Lemma for_each_interpretation (summary : list SummaryRow) :
  for_each summary
    (fun row => let '(cid, msg) := interpretation summary row in
                show (write cid msg))
  = (map (fun cm => write (fst cm) (snd cm)) (interpretations summary), inr tt).
Proof.
  rewrite (for_each_show
             (fun row => write (fst (interpretation summary row))
                               (snd (interpretation summary row)))).
  unfold interpretations. now rewrite map_map.
Qed.

Lemma lookup_replaced (name : string) (c : column) (cols : list (string * column)) :
  lookup name (replace_or_append name c cols) = Some c.
Proof.
  induction cols as [|[n c0] cols IH]; simpl.
  - now rewrite String.eqb_refl.
  - destruct (String.eqb n name) eqn:E; simpl; rewrite E; [reflexivity|exact IH].
Qed.

Lemma setitem_inv (df df' : DataFrame) (name : string) (c : column) :
  setitem df name c = inr df' ->
  column_length c = index df /\
  index df' = index df /\
  getitem df' (Some name) = inr c.
Proof.
  unfold setitem. destruct (Nat.eqb_spec (column_length c) (index df)) as [E|E];
    [|discriminate].
  intros H. injection H as <-. unfold getitem. simpl.
  now rewrite lookup_replaced.
Qed.

Ltac step_call r :=
  let E := fresh "E" in
  destruct r eqn:E; cbn [call bind show app];
  [ left; eexists; eexists; split;
    [ reflexivity | repeat constructor ] | ].

(** A clustering run either stops on an exception before any result is
    rendered, or completes and renders the results page. *)
Lemma run_clustering_cases (df : DataFrame) (f1 f2 : option string)
    (k : nat) (seed g : Z) :
  (exists e out,
      run_clustering df f1 f2 k seed g = (out, inl e) /\
      Forall (fun el => is_result el = false) out)
  \/
  (exists fig summary,
      completed df f1 f2 k seed g fig summary /\
      run_clustering df f1 f2 k seed g = (results_page fig summary, inr tt)).
Proof.
  unfold run_clustering.
  step_call (getitem2 df f1 f2). destruct p as [c1 c2].
  unfold fit_transform.
  step_call (as_matrix (c1, c2)). rename l into M.
  step_call (fit_predict k (Some seed) g (transform (fit M) M)).
  destruct p as [labels cs].
  step_call (setitem df "Cluster" (Int32 labels)).
  rename d into df'.
  destruct (setitem_inv _ _ _ _ E2) as (Hlen & Hidx & Hcl).
  step_call (getitem df' f1). rename c into c1'.
  step_call (to_numeric c1'). rename l into xs.
  step_call (getitem df' f2). rename c into c2'.
  step_call (to_numeric c2'). rename l into ys.
  rewrite Hcl. cbn [call bind show app to_labels].
  assert (Hg : groupby_agg df' "Cluster" f1 f2 = inr (agg labels xs ys)).
  { unfold groupby_agg. rewrite Hcl, E3, E5, E4, E6. reflexivity. }
  rewrite Hg. cbn [call bind show app].
  right.
  exists {| scatter_x := xs; scatter_y := ys; scatter_c := labels;
            centers := inverse_transform (fit M) cs;
            xlabel := f1; ylabel := f2 |}, (agg labels xs ys).
  split.
  - exists c1, c2, M, cs, df', c1', c2'. simpl. repeat split; assumption.
  - rewrite for_each_interpretation. reflexivity.
Qed.

(** The script with an upload: the sidebar, then the clustering run when
    the button was pressed. *)
Lemma script_unfold (df : DataFrame) (ui : Widgets) (g : Z) :
  script (Some df) ui g =
  if run_pressed ui
  then ((sidebar_page (select_dtypes df) (selected_1 df ui)
         ++ rendered (run_clustering df (selected_1 df ui) (selected_2 df ui)
                        (selected_k ui) (seed_field ui) g))%list,
        snd (run_clustering df (selected_1 df ui) (selected_2 df ui)
               (selected_k ui) (seed_field ui) g))
  else (sidebar_page (select_dtypes df) (selected_1 df ui), inr tt).
Proof.
  unfold script, selectbox, slider, number_input, button, rendered.
  cbn [bind show ret app].
  fold (selected_1 df ui). fold (selected_2 df ui). fold (selected_k ui).
  destruct (run_pressed ui); [|reflexivity].
  destruct (run_clustering df (selected_1 df ui) (selected_2 df ui)
              (selected_k ui) (seed_field ui) g) as [out [e|[]]]; reflexivity.
Qed.

Lemma sidebar_no_result (names : list string) (f : option string) :
  Forall (fun el => is_result el = false) (sidebar_page names f).
Proof. repeat constructor. Qed.

(** Every result on a page comes from a completed clustering run. *)
Lemma script_result_inv (up : option DataFrame) (ui : Widgets) (g : Z)
    (el : element) :
  is_result el = true ->
  In el (rendered (script up ui g)) ->
  exists df fig summary,
    up = Some df /\ run_pressed ui = true /\
    completed df (selected_1 df ui) (selected_2 df ui) (selected_k ui)
              (seed_field ui) g fig summary /\
    script up ui g
    = ((sidebar_page (select_dtypes df) (selected_1 df ui)
        ++ results_page fig summary)%list, inr tt).
Proof.
  intros Hres Hin. destruct up as [df|].
  - rewrite script_unfold in *. destruct (run_pressed ui) eqn:Hrun.
    + destruct (run_clustering_cases df (selected_1 df ui) (selected_2 df ui)
                  (selected_k ui) (seed_field ui) g)
        as [(e & out & Hrun_eq & Hout)|(fig & summary & Hc & Hrun_eq)].
      * exfalso. rewrite Hrun_eq in Hin. unfold rendered in Hin. cbn [fst] in Hin.
        apply in_app_or in Hin. destruct Hin as [Hin|Hin].
        -- pose proof (sidebar_no_result (select_dtypes df) (selected_1 df ui)) as Hs.
           rewrite Forall_forall in Hs. specialize (Hs _ Hin). congruence.
        -- rewrite Forall_forall in Hout. specialize (Hout _ Hin). congruence.
      * exists df, fig, summary. rewrite Hrun_eq. unfold rendered. cbn [fst snd].
        repeat split; auto.
    + exfalso. unfold rendered in Hin. cbn [fst] in Hin.
      pose proof (sidebar_no_result (select_dtypes df) (selected_1 df ui)) as Hs.
      rewrite Forall_forall in Hs. specialize (Hs _ Hin). congruence.
  - exfalso. simpl in Hin. destruct Hin as [<-|[]]. discriminate.
Qed.

Lemma written_app (p q : list element) :
  written (p ++ q) = (written p ++ written q)%list.
Proof.
  induction p as [|el p IH]; simpl; [reflexivity|].
  destruct el; simpl; rewrite ?IH; reflexivity.
Qed.

Lemma written_lines (l : list (nat * string)) :
  written (map (fun cm => write (fst cm) (snd cm)) l) = l.
Proof.
  induction l as [|[c m] l IH]; simpl; [reflexivity|]. now rewrite IH.
Qed.

Lemma written_results (fig : Figure) (summary : list SummaryRow) :
  written (results_page fig summary) = interpretations summary.
Proof.
  unfold results_page. cbn [app written].
  rewrite written_app, written_lines. simpl. apply app_nil_r.
Qed.

Lemma results_page_In (fig : Figure) (summary : list SummaryRow) (el : element) :
  In el (results_page fig summary) ->
  is_result el = true ->
  el = pyplot fig \/ el = dataframe summary \/
  exists row, In row summary /\
              el = write (fst (interpretation summary row))
                         (snd (interpretation summary row)).
Proof.
  unfold results_page. cbn [app]. intros Hin Hres.
  repeat (destruct Hin as [<-|Hin]; [auto; try discriminate|]).
  apply in_app_or in Hin. destruct Hin as [Hin|Hin].
  - right; right. apply in_map_iff in Hin. destruct Hin as (cm & <- & Hcm).
    unfold interpretations in Hcm. apply in_map_iff in Hcm.
    destruct Hcm as (row & <- & Hrow). now exists row.
  - destruct Hin as [<-|[]]. discriminate.
Qed.

(** The page of a run that shows a summary. *)
Lemma script_dataframe_inv (up : option DataFrame) (ui : Widgets) (g : Z)
    (summary : list SummaryRow) :
  In (dataframe summary) (rendered (script up ui g)) ->
  exists df fig,
    up = Some df /\ run_pressed ui = true /\
    completed df (selected_1 df ui) (selected_2 df ui) (selected_k ui)
              (seed_field ui) g fig summary /\
    script up ui g
    = ((sidebar_page (select_dtypes df) (selected_1 df ui)
        ++ results_page fig summary)%list, inr tt).
Proof.
  intros Hin.
  destruct (script_result_inv up ui g (dataframe summary) eq_refl Hin)
    as (df & fig & summary' & Hup & Hrun & Hc & Heq).
  rewrite Heq in Hin. unfold rendered in Hin. cbn [fst] in Hin.
  apply in_app_or in Hin. destruct Hin as [Hin|Hin].
  - exfalso.
    pose proof (sidebar_no_result (select_dtypes df) (selected_1 df ui)) as Hs.
    rewrite Forall_forall in Hs. specialize (Hs _ Hin). discriminate.
  - apply results_page_In in Hin; [|reflexivity].
    destruct Hin as [Hin|[Hin|(row & _ & Hin)]]; try discriminate.
    injection Hin as ->. now exists df, fig.
Qed.

Lemma completed_page (df : DataFrame) (ui : Widgets) (g : Z) (fig : Figure)
    (summary : list SummaryRow) :
  script (Some df) ui g
  = ((sidebar_page (select_dtypes df) (selected_1 df ui)
      ++ results_page fig summary)%list, inr tt) ->
  In (pyplot fig) (rendered (script (Some df) ui g)) /\
  written (rendered (script (Some df) ui g)) = interpretations summary.
Proof.
  intros ->. unfold rendered. cbn [fst]. split.
  - apply in_or_app. right. unfold results_page. simpl. auto.
  - rewrite written_app, written_results. reflexivity.
Qed.

Lemma completed_summary (df : DataFrame) (f1 f2 : option string) (k : nat)
    (seed g : Z) (fig : Figure) (summary : list SummaryRow) :
  completed df f1 f2 k seed g fig summary ->
  summary = agg (scatter_c fig) (scatter_x fig) (scatter_y fig).
Proof.
  intros (c1 & c2 & M & cs & df' & c1' & c2' & H).
  decompose [and] H. assumption.
Qed.

Lemma completed_rows (df : DataFrame) (f1 f2 : option string) (k : nat)
    (seed g : Z) (fig : Figure) (summary : list SummaryRow) :
  completed df f1 f2 k seed g fig summary ->
  length (scatter_c fig) = index df.
Proof.
  intros (c1 & c2 & M & cs & df' & c1' & c2' & H).
  decompose [and] H.
  match goal with
  | Hset : setitem _ _ _ = inr _ |- _ =>
      destruct (setitem_inv _ _ _ _ Hset) as (Hlen & _)
  end.
  exact Hlen.
Qed.

(* ---------------------------------------------------------------- *)
(** ** Comparisons *)

Lemma gtb_lt (a g : Q) : Num.gtb a g = true <-> g < a.
Proof.
  unfold Num.gtb. rewrite Qgt_alt. destruct (a ?= g); intuition discriminate.
Qed.

Lemma ltb_lt (a g : Q) : Num.ltb a g = true <-> a < g.
Proof.
  unfold Num.ltb. rewrite Qlt_alt. destruct (a ?= g); intuition discriminate.
Qed.





(* ---------------------------------------------------------------- *)
(** ** The summary and the interpretation *)


(** C2.  On every page that shows a cluster summary, the interpretation
    lines are those of the summary rows, in order, and the label of a row
    follows the precedence: both means strictly above the grand means gives
    the high-spending label; otherwise both strictly below gives the
    budget-conscious label; otherwise the moderate label.  A row whose first
    mean is above and whose second mean equals the grand mean is moderate. *)
Theorem interpretation_precedence
    (up : option DataFrame) (ui : Widgets) (g : Z) (summary : list SummaryRow) :
  In (dataframe summary) (rendered (script up ui g)) ->
  written (rendered (script up ui g)) = interpretations summary /\
  forall row, In row summary ->
    let a1 := Avg_Feature_1 row in
    let a2 := Avg_Feature_2 row in
    let g1 := Num.mean (map Avg_Feature_1 summary) in
    let g2 := Num.mean (map Avg_Feature_2 summary) in
    let msg := snd (interpretation summary row) in
    fst (interpretation summary row) = Cluster row /\
    (g1 < a1 /\ g2 < a2 -> msg = high_spending) /\
    (~ (g1 < a1 /\ g2 < a2) -> a1 < g1 /\ a2 < g2 -> msg = budget_conscious) /\
    (~ (g1 < a1 /\ g2 < a2) -> ~ (a1 < g1 /\ a2 < g2) -> msg = moderate) /\
    (g1 < a1 -> a2 == g2 -> msg = moderate).
Proof.
  intros Hin.
  destruct (script_dataframe_inv _ _ _ _ Hin) as (df & fig & -> & _ & _ & Heq).
  destruct (completed_page _ _ _ _ _ Heq) as [_ Hw].
  split; [exact Hw|].
  intros row _ a1 a2 g1 g2 msg.
  subst msg. unfold interpretation. cbn [fst snd].
  fold a1 a2 g1 g2.
  destruct (Num.gtb a1 g1) eqn:G1; destruct (Num.gtb a2 g2) eqn:G2;
    destruct (Num.ltb a1 g1) eqn:L1; destruct (Num.ltb a2 g2) eqn:L2;
    cbn [andb];
    rewrite ?gtb_lt in *; rewrite ?ltb_lt in *;
    repeat split; try reflexivity; intros;
    try tauto;
    try (exfalso;
         repeat match goal with
                | H : Num.gtb _ _ = false |- _ =>
                    apply not_true_iff_false in H; rewrite gtb_lt in H
                | H : Num.ltb _ _ = false |- _ =>
                    apply not_true_iff_false in H; rewrite ltb_lt in H
                end;
         try tauto;
         match goal with
         | Heq : ?x == ?y, Hlt : ?x < ?y |- _ =>
             rewrite Heq in Hlt; exact (Qlt_irrefl _ Hlt)
         | Heq : ?x == ?y, Hlt : ?y < ?x |- _ =>
             rewrite Heq in Hlt; exact (Qlt_irrefl _ Hlt)
         | H1 : ?x < ?y, H2 : ?y < ?x |- _ =>
             exact (Qlt_irrefl _ (Qlt_trans _ _ _ H1 H2))
         end).
Qed.

(** C7.  On every page that shows a cluster summary, the counts of the
    summary rows add up to the number of rows of the uploaded dataset. *)
Theorem summary_counts_total
    (up : option DataFrame) (ui : Widgets) (g : Z) (summary : list SummaryRow) :
  In (dataframe summary) (rendered (script up ui g)) ->
  exists df, up = Some df /\ list_sum (map Count summary) = index df.
Proof.
  intros Hin.
  destruct (script_dataframe_inv _ _ _ _ Hin) as (df & fig & -> & _ & Hc & _).
  exists df. split; [reflexivity|].
  rewrite (completed_summary _ _ _ _ _ _ _ _ Hc), agg_Count_total.
  exact (completed_rows _ _ _ _ _ _ _ _ Hc).
Qed.

(** C10.  On every page that shows a cluster summary, the cluster ids of the
    summary rows are strictly ascending (so no id has two rows), an id has a
    row exactly when some row of the dataset is assigned to it, the count of
    a row is the number of rows assigned to its id and is never zero, and
    the interpretation lines carry the same ids in the same order. *)
Theorem summary_rows_populated_ascending
    (up : option DataFrame) (ui : Widgets) (g : Z) (summary : list SummaryRow) :
  In (dataframe summary) (rendered (script up ui g)) ->
  exists fig,
    In (pyplot fig) (rendered (script up ui g)) /\
    StronglySorted lt (map Cluster summary) /\
    (forall c, In c (map Cluster summary) <-> In c (scatter_c fig)) /\
    Forall (fun row =>
              Count row = count_occ Nat.eq_dec (scatter_c fig) (Cluster row) /\
              (0 < Count row)%nat) summary /\
    map fst (written (rendered (script up ui g))) = map Cluster summary.
Proof.
  intros Hin.
  destruct (script_dataframe_inv _ _ _ _ Hin) as (df & fig & -> & _ & Hc & Heq).
  destruct (completed_page _ _ _ _ _ Heq) as [Hfig Hw].
  pose proof (completed_summary _ _ _ _ _ _ _ _ Hc) as Hs.
  exists fig. split; [exact Hfig|].
  rewrite Hw, Hs, agg_Cluster.
  split; [apply group_keys_sorted|].
  split; [intros c; apply group_keys_In|].
  split.
  - apply Forall_forall. intros row Hrow.
    unfold agg in Hrow. apply in_map_iff in Hrow.
    destruct Hrow as (c & <- & Hc'). cbn [Count Cluster].
    rewrite group_size. split; [reflexivity|].
    apply count_occ_In. now apply group_keys_In.
  - unfold interpretations. rewrite map_map. cbn [interpretation fst].
    rewrite <- (agg_Cluster (scatter_c fig) (scatter_x fig) (scatter_y fig)).
    reflexivity.
Qed.

(* ---------------------------------------------------------------- *)
(** ** The clustering engine *)

Lemma nearest_from_bound (p : point) (cs : list point) (j best : nat)
    (best_d : Q) (n : nat) :
  (best < n)%nat -> (j + length cs <= n)%nat ->
  (nearest_from p cs j best best_d < n)%nat.
Proof.
  revert j best best_d.
  induction cs as [|c cs IH]; intros j best best_d Hbest Hj; simpl in *.
  - exact Hbest.
  - destruct (Num.ltb (dist2 p c) best_d); apply IH; lia.
Qed.

Lemma nearest_bound (p : point) (cs : list point) :
  cs <> [] -> (nearest p cs < length cs)%nat.
Proof.
  destruct cs as [|c cs]; [congruence|]. intros _. simpl.
  apply nearest_from_bound; simpl; lia.
Qed.

Lemma assign_length (X cs : list point) : length (assign X cs) = length X.
Proof. unfold assign. apply length_map. Qed.

Lemma assign_bound (X cs : list point) :
  cs <> [] -> Forall (fun id => (id < length cs)%nat) (assign X cs).
Proof.
  intros Hcs. unfold assign. apply Forall_forall. intros id Hin.
  apply in_map_iff in Hin. destruct Hin as (p & <- & _).
  now apply nearest_bound.
Qed.

Lemma update_length (X : list point) (labels : list nat) (cs : list point) :
  length (update X labels cs) = length cs.
Proof.
  unfold update. rewrite length_map, length_combine, length_seq.
  apply Nat.min_id.
Qed.

Lemma lloyd_length (fuel : nat) (X cs : list point) :
  length (lloyd fuel X cs) = length cs.
Proof.
  revert cs. induction fuel as [|fuel IH]; intros cs; simpl; [reflexivity|].
  destruct (labels_eqb _ _).
  - apply update_length.
  - rewrite IH. apply update_length.
Qed.

(** A duplicate-free list of numbers below [k] has at most [k] entries. *)
Lemma distinct_below (k : nat) (l : list nat) :
  NoDup l -> Forall (fun id => (id < k)%nat) l -> (length l <= k)%nat.
Proof.
  intros Hnd Hall. rewrite <- (length_seq k 0).
  apply NoDup_incl_length; [exact Hnd|].
  intros id Hin. rewrite Forall_forall in Hall.
  apply in_seq. specialize (Hall _ Hin). lia.
Qed.

Lemma transform_length (scaler : StandardScaler) (X : list point) :
  length (transform scaler X) = length X.
Proof. unfold transform. apply length_map. Qed.

(** With a seed, the engine does not read the process-wide generator. *)
Lemma run_clustering_seeded (df : DataFrame) (f1 f2 : option string)
    (k : nat) (seed g g' : Z) :
  run_clustering df f1 f2 k seed g = run_clustering df f1 f2 k seed g'.
Proof. reflexivity. Qed.

(** C4.  Two executions of the script on the same upload whose widgets
    yield the same two features, the same K and the same seed (and are both
    runs, or both not) render the same page and end the same way, whatever
    the state of the process-wide random generator and whatever the stored
    widget positions; in particular the cluster id of every row is the
    same. *)
Theorem same_inputs_same_assignments
    (up : option DataFrame) (ui ui' : Widgets) (g g' : Z) :
  (forall df, up = Some df ->
              selected_1 df ui = selected_1 df ui' /\
              selected_2 df ui = selected_2 df ui') ->
  selected_k ui = selected_k ui' ->
  seed_field ui = seed_field ui' ->
  run_pressed ui = run_pressed ui' ->
  script up ui g = script up ui' g' /\
  assignments (rendered (script up ui g))
  = assignments (rendered (script up ui' g')).
Proof.
  intros Hf Hk Hseed Hrun.
  assert (Heq : script up ui g = script up ui' g').
  { destruct up as [df|]; [|reflexivity].
    destruct (Hf df eq_refl) as [H1 H2].
    rewrite !script_unfold, H1, H2, Hk, Hseed, Hrun.
    now rewrite (run_clustering_seeded df _ _ _ _ g g'). }
  split; [exact Heq|now rewrite Heq].
Qed.

(* ---------------------------------------------------------------- *)
(** ** Standardization *)

Lemma map_fst_combine {A B : Type} (a : list A) (b : list B) :
  length a = length b -> map fst (combine a b) = a.
Proof.
  revert b. induction a as [|x a IH]; intros [|y b] H; simpl in *;
    try reflexivity; try discriminate.
  f_equal. apply IH. lia.
Qed.

Lemma map_snd_combine {A B : Type} (a : list A) (b : list B) :
  length a = length b -> map snd (combine a b) = b.
Proof.
  revert b. induction a as [|x a IH]; intros [|y b] H; simpl in *;
    try reflexivity; try discriminate.
  f_equal. apply IH. lia.
Qed.

Lemma map_pair_combine {A B C D : Type} (f : A -> C) (h : B -> D)
    (a : list A) (b : list B) :
  map (fun p => (f (fst p), h (snd p))) (combine a b)
  = combine (map f a) (map h b).
Proof.
  revert b. induction a as [|x a IH]; intros [|y b]; simpl; try reflexivity.
  now rewrite IH.
Qed.

Lemma variance_population (col : list Q) :
  variance col = population_variance col.
Proof.
  unfold variance, population_variance, Num.mean. now rewrite length_map.
Qed.

Lemma to_numeric_length (c : column) (v : list Q) :
  to_numeric c = inr v -> length v = column_length c.
Proof.
  destruct c; simpl; intros H; inversion H; subst;
    rewrite ?length_map; reflexivity.
Qed.

(** C5.  For two numeric columns of the same length N, the standardization
    step returns the N-row matrix whose first column is the first input
    column standardized by its own mean and population standard deviation,
    and whose second column is the second input column standardized by its
    own; the fitted scaler holds exactly those statistics. *)
Theorem standardization_is_population_zscore
    (c1 c2 : column) (v1 v2 : list Q) :
  to_numeric c1 = inr v1 -> to_numeric c2 = inr v2 ->
  length v1 = length v2 ->
  exists scaler,
    fit_transform (c1, c2)
    = inr (scaler, combine (standardize_column v1) (standardize_column v2)) /\
    mean_ scaler = (Num.mean v1, Num.mean v2) /\
    scale_ scaler = (sqrt (population_variance v1),
                     sqrt (population_variance v2)) /\
    length (combine (standardize_column v1) (standardize_column v2))
    = length v1.
Proof.
  intros H1 H2 Hlen.
  unfold fit_transform, as_matrix. cbn [fst snd]. rewrite H1, H2.
  eexists. split; [|split; [|split]].
  - f_equal. f_equal.
    unfold transform, fit, std. cbn [mean_ scale_ fst snd].
    rewrite (map_fst_combine v1 v2 Hlen), (map_snd_combine v1 v2 Hlen).
    rewrite !variance_population.
    apply (map_pair_combine
             (fun x => (x - Num.mean v1) / sqrt (population_variance v1))
             (fun y => (y - Num.mean v2) / sqrt (population_variance v2))).
  - cbn [fit mean_].
    now rewrite (map_fst_combine v1 v2 Hlen), (map_snd_combine v1 v2 Hlen).
  - unfold fit, std. cbn [scale_].
    now rewrite (map_fst_combine v1 v2 Hlen), (map_snd_combine v1 v2 Hlen),
      !variance_population.
  - unfold standardize_column.
    rewrite length_combine, !length_map, <- Hlen. apply Nat.min_id.
Qed.

Lemma sum_ext (f h : Q -> Q) (l : list Q) :
  (forall x, f x == h x) -> Num.sum (map f l) == Num.sum (map h l).
Proof.
  intros H. induction l as [|a l IH]; simpl; [reflexivity|].
  now rewrite IH, (H a).
Qed.

Lemma sum_scale (f : Q -> Q) (c : Q) (l : list Q) :
  Num.sum (map (fun x => f x * c) l) == Num.sum (map f l) * c.
Proof.
  induction l as [|a l IH]; simpl; [ring|]. rewrite IH. ring.
Qed.

Lemma of_nat_S (n : nat) : Num.of_nat (S n) == Num.of_nat n + 1.
Proof.
  unfold Num.of_nat. rewrite Nat2Z.inj_succ, <- Z.add_1_r, inject_Z_plus.
  reflexivity.
Qed.

Lemma of_nat_nonzero (n : nat) : n <> O -> ~ Num.of_nat n == 0.
Proof.
  intros Hn H. unfold Num.of_nat, Qeq in H. simpl in H. lia.
Qed.

Lemma sum_shift (m : Q) (l : list Q) :
  Num.sum (map (fun x => x - m) l) == Num.sum l - Num.of_nat (length l) * m.
Proof.
  induction l as [|a l IH]; cbn [map Num.sum fold_right length].
  - unfold Num.of_nat. simpl. ring.
  - fold (Num.sum (map (fun x => x - m) l)). fold (Num.sum l).
    rewrite IH, of_nat_S. ring.
Qed.

(** The deviations from the mean add up to zero. *)
Lemma deviations_sum_zero (col : list Q) :
  Num.sum (map (fun x => x - Num.mean col) col) == 0.
Proof.
  rewrite sum_shift. unfold Num.mean.
  destruct col as [|a col]; [unfold Num.of_nat; simpl; ring|].
  field. apply of_nat_nonzero. discriminate.
Qed.

(** A standardized column has mean zero. *)
Lemma standardized_mean_zero (col : list Q) :
  Num.mean (standardize_column col) == 0.
Proof.
  unfold standardize_column, Num.mean at 1. rewrite length_map.
  unfold Qdiv at 2.
  rewrite (sum_scale (fun x => x - Num.mean col)), deviations_sum_zero.
  unfold Qdiv. ring.
Qed.

(** A standardized column has population variance one, when the square root
    is exact on the column's variance and that variance is not zero. *)
Lemma standardized_variance_one (col : list Q) :
  ~ population_variance col == 0 ->
  sqrt (population_variance col) * sqrt (population_variance col)
  == population_variance col ->
  population_variance (standardize_column col) == 1.
Proof.
  intros Hv Hs.
  set (s := sqrt (population_variance col)) in *.
  assert (Hs0 : ~ s == 0).
  { intros E. apply Hv. rewrite <- Hs, E. ring. }
  unfold population_variance at 1.
  rewrite (sum_ext _ (fun z => z * z)).
  2:{ intros z. rewrite standardized_mean_zero. ring. }
  unfold standardize_column. fold s. rewrite map_map, length_map.
  rewrite (sum_ext _ (fun x => (x - Num.mean col) * (x - Num.mean col) * (/ s * / s))).
  2:{ intros x. unfold Qdiv. ring. }
  rewrite (sum_scale (fun x => (x - Num.mean col) * (x - Num.mean col))).
  assert (Hn : ~ Num.of_nat (length col) == 0).
  { intros E. apply Hv. unfold population_variance. rewrite E.
    unfold Qdiv. change (/ 0) with 0. ring. }
  transitivity (population_variance col * (/ s * / s)).
  - unfold population_variance. field. split; assumption.
  - rewrite <- Hs. field. exact Hs0.
Qed.

(** Undoing the standardization of a standardized point gives the point
    back, and the other way round, when neither scale is zero. *)
Lemma inverse_transform_transform (scaler : StandardScaler) (P : list point) :
  ~ fst (scale_ scaler) == 0 -> ~ snd (scale_ scaler) == 0 ->
  matrix_eq (inverse_transform scaler (transform scaler P)) P.
Proof.
  intros H1 H2. unfold matrix_eq, inverse_transform, transform.
  induction P as [|p P IH]; simpl; constructor; [|exact IH].
  split; cbn [fst snd]; field; assumption.
Qed.

Lemma transform_inverse_transform (scaler : StandardScaler) (C : list point) :
  ~ fst (scale_ scaler) == 0 -> ~ snd (scale_ scaler) == 0 ->
  matrix_eq (transform scaler (inverse_transform scaler C)) C.
Proof.
  intros H1 H2. unfold matrix_eq, inverse_transform, transform.
  induction C as [|c C IH]; simpl; constructor; [|exact IH].
  split; cbn [fst snd]; field; assumption.
Qed.

(** The page of a run that shows a plot. *)
Lemma script_pyplot_inv (up : option DataFrame) (ui : Widgets) (g : Z)
    (fig : Figure) :
  In (pyplot fig) (rendered (script up ui g)) ->
  exists df summary,
    up = Some df /\ run_pressed ui = true /\
    completed df (selected_1 df ui) (selected_2 df ui) (selected_k ui)
              (seed_field ui) g fig summary /\
    script up ui g
    = ((sidebar_page (select_dtypes df) (selected_1 df ui)
        ++ results_page fig summary)%list, inr tt).
Proof.
  intros Hin.
  destruct (script_result_inv up ui g (pyplot fig) eq_refl Hin)
    as (df & fig' & summary & Hup & Hrun & Hc & Heq).
  rewrite Heq in Hin. unfold rendered in Hin. cbn [fst] in Hin.
  apply in_app_or in Hin. destruct Hin as [Hin|Hin].
  - exfalso.
    pose proof (sidebar_no_result (select_dtypes df) (selected_1 df ui)) as Hs.
    rewrite Forall_forall in Hs. specialize (Hs _ Hin). discriminate.
  - apply results_page_In in Hin; [|reflexivity].
    destruct Hin as [Hin|[Hin|(row & _ & Hin)]]; try discriminate.
    injection Hin as ->. now exists df, summary.
Qed.












(* ---------------------------------------------------------------- *)
(** ** Feature selection *)

Lemma selected_nil (chosen : nat) : selected [] chosen = None.
Proof. unfold selected. now destruct chosen. Qed.

Lemma selected_In (options : list string) (chosen : nat) :
  options <> [] ->
  exists f, selected options chosen = Some f /\ In f options.
Proof.
  intros Hne. unfold selected.
  destruct (nth_error options chosen) as [o|] eqn:E.
  - exists o. split; [reflexivity|]. eapply nth_error_In; eauto.
  - destruct options as [|o options]; [congruence|].
    exists o. split; [reflexivity|now left].
Qed.

Lemma lookup_In (name : string) (cols : list (string * column)) :
  In name (map fst cols) -> exists c, lookup name cols = Some c /\ In (name, c) cols.
Proof.
  induction cols as [|[n c] cols IH]; simpl; [tauto|].
  intros Hin. destruct (String.eqb_spec n name) as [->|Hne].
  - exists c. auto.
  - destruct Hin as [Heq|Hin]; [congruence|].
    destruct (IH Hin) as (c' & Hl & Hc'). exists c'. auto.
Qed.

Lemma lookup_Some_In (name : string) (cols : list (string * column)) (c : column) :
  lookup name cols = Some c -> In (name, c) cols.
Proof.
  induction cols as [|[n c0] cols IH]; simpl; [discriminate|].
  destruct (String.eqb_spec n name) as [->|Hne].
  - intros H. injection H as ->. now left.
  - intros H. right. now apply IH.
Qed.

Lemma filter_names_In (p : string * column -> bool) (cols : list (string * column))
    (name : string) :
  In name (map fst (filter p cols)) -> In name (map fst cols).
Proof.
  intros Hin. apply in_map_iff in Hin. destruct Hin as (nc & <- & Hnc).
  apply filter_In in Hnc. apply in_map. tauto.
Qed.

Lemma filter_names_NoDup (p : string * column -> bool) (cols : list (string * column)) :
  NoDup (map fst cols) -> NoDup (map fst (filter p cols)).
Proof.
  induction cols as [|nc cols IH]; simpl; intros Hnd; [constructor|].
  inversion Hnd as [|? ? Hnin Hnd']; subst.
  destruct (p nc); simpl; auto.
  constructor; auto. intro Hin. apply Hnin. eapply filter_names_In; eauto.
Qed.

(** A name offered by the select boxes is the name of a numeric column. *)
Lemma lookup_numeric (cols : list (string * column)) (name : string) :
  NoDup (map fst cols) ->
  In name (map fst (filter (fun nc => is_int64_or_float64 (snd nc)) cols)) ->
  exists vals, lookup name cols = Some (Numeric vals).
Proof.
  induction cols as [|[n c] cols IH]; simpl; intros Hnd Hin; [destruct Hin|].
  inversion Hnd as [|? ? Hnin Hnd']; subst.
  destruct (String.eqb_spec n name) as [->|Hne].
  - destruct c as [vals|ids|cells]; simpl in Hin.
    + now exists vals.
    + exfalso. apply Hnin. eapply filter_names_In; eauto.
    + exfalso. apply Hnin. eapply filter_names_In; eauto.
  - apply IH; [exact Hnd'|].
    destruct (is_int64_or_float64 c); simpl in Hin; [|exact Hin].
    destruct Hin as [Heq|Hin]; [congruence|exact Hin].
Qed.

Lemma other_feature_exists (l : list string) (o : option string) :
  NoDup l -> (2 <= length l)%nat ->
  filter (fun f => negb (option_string_eqb (Some f) o)) l <> [].
Proof.
  intros Hnd Hlen.
  destruct l as [|a [|b r]]; simpl in Hlen; try lia.
  assert (Hab : a <> b).
  { inversion Hnd as [|? ? Hnin _]; subst. intros ->. apply Hnin. now left. }
  cbn [filter option_string_eqb].
  destruct o as [y|]; cbn [negb]; [|discriminate].
  destruct (String.eqb_spec a y) as [->|Hay]; cbn [negb]; [|discriminate].
  destruct (String.eqb_spec b y) as [->|Hby]; cbn [negb]; [congruence|discriminate].
Qed.

(** With distinct column names and at least two numeric columns, the two
    select boxes yield two numeric columns of the frame. *)
Lemma selected_features_numeric (df : DataFrame) (ui : Widgets) :
  NoDup (column_names df) -> (2 <= length (select_dtypes df))%nat ->
  exists f1 f2 v1 v2,
    selected_1 df ui = Some f1 /\ selected_2 df ui = Some f2 /\ f1 <> f2 /\
    getitem df (Some f1) = inr (Numeric v1) /\
    getitem df (Some f2) = inr (Numeric v2).
Proof.
  intros Hnd Hlen.
  assert (Hnd' : NoDup (select_dtypes df)) by now apply filter_names_NoDup.
  destruct (selected_In (select_dtypes df) (chosen_1 ui)) as (f1 & Hs1 & Hin1).
  { intros E. rewrite E in Hlen. simpl in Hlen. lia. }
  destruct (selected_In
              (filter (fun f => negb (option_string_eqb (Some f) (selected_1 df ui)))
                      (select_dtypes df)) (chosen_2 ui)) as (f2 & Hs2 & Hin2).
  { now apply other_feature_exists. }
  apply filter_In in Hin2. destruct Hin2 as [Hin2 Hneq].
  fold (selected_1 df ui) in Hs1. fold (selected_2 df ui) in Hs2.
  rewrite Hs1 in Hneq. cbn [option_string_eqb] in Hneq.
  destruct (lookup_numeric (columns df) f1 Hnd Hin1) as (v1 & Hl1).
  destruct (lookup_numeric (columns df) f2 Hnd Hin2) as (v2 & Hl2).
  exists f1, f2, v1, v2. unfold getitem. rewrite Hl1, Hl2.
  repeat split; auto.
  intros ->. rewrite String.eqb_refl in Hneq. discriminate.
Qed.

Lemma getitem_length (df : DataFrame) (key : option string) (c : column) :
  well_formed df -> getitem df key = inr c -> column_length c = index df.
Proof.
  intros [_ Hall] H. unfold getitem in H.
  destruct key as [name|]; [|discriminate].
  destruct (lookup name (columns df)) as [c'|] eqn:E; [|discriminate].
  injection H as ->. apply lookup_Some_In in E.
  rewrite Forall_forall in Hall. exact (Hall _ E).
Qed.

Lemma getitem2_inv (df : DataFrame) (k1 k2 : option string) (c1 c2 : column) :
  getitem2 df k1 k2 = inr (c1, c2) ->
  getitem df k1 = inr c1 /\ getitem df k2 = inr c2.
Proof.
  unfold getitem2.
  destruct (getitem df k1) as [e1|c1']; destruct (getitem df k2) as [e2|c2'];
    try discriminate.
  intros H. injection H as -> ->. auto.
Qed.

Lemma as_matrix_inv (c1 c2 : column) (M : list point) :
  as_matrix (c1, c2) = inr M ->
  exists v1 v2, to_numeric c1 = inr v1 /\ to_numeric c2 = inr v2 /\
                M = combine v1 v2.
Proof.
  unfold as_matrix. cbn [fst snd].
  destruct (to_numeric c1) as [e1|v1]; destruct (to_numeric c2) as [e2|v2];
    try discriminate.
  intros H. injection H as <-. now exists v1, v2.
Qed.

(** The matrix of two columns of a well-formed frame has one row per row of
    the frame. *)
Lemma matrix_rows (df : DataFrame) (k1 k2 : option string) (c1 c2 : column)
    (M : list point) :
  well_formed df -> getitem2 df k1 k2 = inr (c1, c2) ->
  as_matrix (c1, c2) = inr M -> length M = index df.
Proof.
  intros Hwf Hget HM.
  destruct (getitem2_inv _ _ _ _ _ Hget) as [H1 H2].
  destruct (as_matrix_inv _ _ _ HM) as (v1 & v2 & Hv1 & Hv2 & ->).
  pose proof (to_numeric_length _ _ Hv1) as L1.
  pose proof (to_numeric_length _ _ Hv2) as L2.
  pose proof (getitem_length _ _ _ Hwf H1) as G1.
  pose proof (getitem_length _ _ _ Hwf H2) as G2.
  unfold point. rewrite length_combine. lia.
Qed.

(* ---------------------------------------------------------------- *)
(** ** Failing runs *)

Lemma fit_predict_too_few (k : nat) (random_state : option Z) (g : Z)
    (X : list point) :
  (length X < k)%nat ->
  fit_predict k random_state g X
  = inl (ValueError "n_samples should be >= n_clusters").
Proof.
  intros H. unfold fit_predict.
  destruct (Nat.ltb_spec (length X) k) as [_|Hge]; [reflexivity|lia].
Qed.

(** With fewer rows than clusters the run stops on an exception before it
    renders anything. *)
Lemma run_clustering_too_few (df : DataFrame) (f1 f2 : option string)
    (k : nat) (seed g : Z) :
  well_formed df -> (index df < k)%nat ->
  exists e,
    run_clustering df f1 f2 k seed g = ([], inl e) /\
    (forall X M, getitem2 df f1 f2 = inr X -> as_matrix X = inr M ->
                 e = ValueError "n_samples should be >= n_clusters").
Proof.
  intros Hwf Hk. unfold run_clustering, fit_transform.
  destruct (getitem2 df f1 f2) as [e|[c1 c2]] eqn:Hget; cbn [call bind].
  { exists e. split; [reflexivity|]. intros X M H. discriminate. }
  destruct (as_matrix (c1, c2)) as [e|M] eqn:HM; cbn [call bind].
  { exists e. split; [reflexivity|]. intros X M H. injection H as <-.
    rewrite HM. discriminate. }
  rewrite fit_predict_too_few.
  - eexists. split; [reflexivity|]. reflexivity.
  - rewrite transform_length, (matrix_rows _ _ _ _ _ _ Hwf Hget HM). exact Hk.
Qed.

(** C8.  When the button is pressed on a dataset with fewer rows than the
    chosen K, the script ends with an uncaught exception and renders the
    sidebar only: no plot, no summary, no interpretation line.  When the
    dataset has two numeric columns to select, the exception is the
    engine's refusal of K above the number of rows. *)
Theorem too_many_clusters_fails (df : DataFrame) (ui : Widgets) (g : Z) :
  well_formed df -> run_pressed ui = true ->
  (index df < selected_k ui)%nat ->
  exists e,
    raised (script (Some df) ui g) = Some e /\
    rendered (script (Some df) ui g)
    = sidebar_page (select_dtypes df) (selected_1 df ui) /\
    Forall (fun el => is_result el = false) (rendered (script (Some df) ui g)) /\
    ((2 <= length (select_dtypes df))%nat ->
     e = ValueError "n_samples should be >= n_clusters").
Proof.
  intros Hwf Hrun Hk.
  destruct (run_clustering_too_few df (selected_1 df ui) (selected_2 df ui)
              (selected_k ui) (seed_field ui) g Hwf Hk) as (e & Heq & He).
  exists e. rewrite script_unfold, Hrun, Heq.
  unfold raised, rendered. cbn [fst snd]. rewrite app_nil_r.
  repeat split.
  - apply sidebar_no_result.
  - intros Hnum.
    destruct (selected_features_numeric df ui (proj1 Hwf) Hnum)
      as (f1 & f2 & v1 & v2 & Hs1 & Hs2 & _ & Hg1 & Hg2).
    apply (He (Numeric v1, Numeric v2) (combine v1 v2)).
    + unfold getitem2. now rewrite Hs1, Hs2, Hg1, Hg2.
    + reflexivity.
Qed.

(** C9 (as the code has it).  With fewer than two numeric columns the
    sidebar is rendered all the same, the second select box has no option
    and yields no feature; a run then stops at the selection of the two
    columns with an uncaught KeyError that reports the missing [None] key,
    before anything else is rendered or computed; without a run the script
    ends normally. *)
Theorem too_few_numeric_columns (df : DataFrame) (ui : Widgets) (g : Z) :
  (length (select_dtypes df) < 2)%nat ->
  filter (fun f => negb (option_string_eqb (Some f) (selected_1 df ui)))
         (select_dtypes df) = [] /\
  selected_2 df ui = None /\
  rendered (script (Some df) ui g)
  = sidebar_page (select_dtypes df) (selected_1 df ui) /\
  raised (script (Some df) ui g)
  = (if run_pressed ui
     then Some (KeyError (filter (is_missing df) [selected_1 df ui; None]))
     else None) /\
  In None (filter (is_missing df) [selected_1 df ui; None]).
Proof.
  intros Hlen.
  assert (Hopts : filter (fun f => negb (option_string_eqb (Some f) (selected_1 df ui)))
                         (select_dtypes df) = []).
  { unfold selected_1.
    destruct (select_dtypes df) as [|a [|b r]]; simpl in Hlen; try lia.
    - reflexivity.
    - assert (Hs : selected [a] (chosen_1 ui) = Some a).
      { unfold selected. destruct (chosen_1 ui) as [|[|n]]; reflexivity. }
      rewrite Hs. cbn [filter option_string_eqb]. now rewrite String.eqb_refl. }
  assert (H2 : selected_2 df ui = None).
  { unfold selected_2. rewrite Hopts. apply selected_nil. }
  assert (Hget : getitem2 df (selected_1 df ui) None
                 = inl (KeyError (filter (is_missing df) [selected_1 df ui; None]))).
  { unfold getitem2. destruct (getitem df (selected_1 df ui)); reflexivity. }
  split; [exact Hopts|]. split; [exact H2|].
  rewrite script_unfold, H2. unfold run_clustering. rewrite Hget.
  cbn [call bind]. unfold raised, rendered.
  destruct (run_pressed ui); cbn [fst snd]; rewrite ?app_nil_r.
  - repeat split. apply filter_In. split; [simpl; auto|reflexivity].
  - repeat split. apply filter_In. split; [simpl; auto|reflexivity].
Qed.

(* ---------------------------------------------------------------- *)
(** ** Reading a column back once the labels are stored *)

Lemma lookup_not_replaced (name name' : string) (c : column)
    (cols : list (string * column)) :
  name' <> name ->
  lookup name' (replace_or_append name c cols) = lookup name' cols.
Proof.
  intros Hne. induction cols as [|[n c0] cols IH]; simpl.
  - destruct (String.eqb_spec name name'); [congruence|reflexivity].
  - destruct (String.eqb_spec n name) as [->|Hn]; simpl.
    + destruct (String.eqb_spec name name'); [congruence|reflexivity].
    + destruct (String.eqb_spec n name'); [reflexivity|exact IH].
Qed.

(** After [df[name] = c] a column that could be read can still be read: it
    is the new column under that name, the old one under any other. *)
Lemma getitem_after_setitem (df df' : DataFrame) (name f : string)
    (c c0 : column) :
  setitem df name c = inr df' -> getitem df (Some f) = inr c0 ->
  getitem df' (Some f) = inr (if String.eqb f name then c else c0).
Proof.
  unfold setitem. destruct (Nat.eqb (column_length c) (index df)); [|discriminate].
  intros H. injection H as <-. unfold getitem. cbn [columns].
  destruct (String.eqb_spec f name) as [->|Hne].
  - intros _. now rewrite lookup_replaced.
  - rewrite lookup_not_replaced by exact Hne. trivial.
Qed.

(* ---------------------------------------------------------------- *)
(** ** The assignment of rows to clusters *)

Section Policy.

(** The initialisation returns as many centroids as it is asked for. *)
Hypothesis init_length :
  forall (rng : Z) (k : nat) (X : list point),
    (k <= length X)%nat -> length (init rng k X) = k.

(** What a successful call of the engine returns: one label per row, each
    below the number of clusters, and that many centroids. *)
Lemma fit_predict_labels (k : nat) (random_state : option Z) (g : Z)
    (X : list point) (labels_ : list nat) (cluster_centers_ : list point) :
  (1 <= k)%nat ->
  fit_predict k random_state g X = inr (labels_, cluster_centers_) ->
  (k <= length X)%nat /\
  length cluster_centers_ = k /\
  length labels_ = length X /\
  Forall (fun id => (id < k)%nat) labels_.
Proof.
  intros Hk. unfold fit_predict.
  destruct (Nat.ltb_spec (length X) k) as [Hlt|Hge]; [discriminate|].
  intros H. injection H as <- <-.
  set (cs := lloyd max_iter X (init (check_random_state random_state g) k X)).
  assert (Hcs : length cs = k).
  { subst cs. rewrite lloyd_length. now apply init_length. }
  assert (Hne : cs <> []) by (intros E; rewrite E in Hcs; simpl in Hcs; lia).
  repeat split; try assumption.
  - apply assign_length.
  - rewrite <- Hcs. now apply assign_bound.
Qed.

(** On every page that shows a plot, every row of the dataset is coloured by
    one cluster id below the chosen K. *)
Lemma plotted_assignments (up : option DataFrame) (ui : Widgets) (g : Z)
    (fig : Figure) :
  In (pyplot fig) (rendered (script up ui g)) ->
  exists df, up = Some df /\
             length (scatter_c fig) = index df /\
             Forall (fun id => (id < selected_k ui)%nat) (scatter_c fig).
Proof.
  intros Hin.
  destruct (script_pyplot_inv _ _ _ _ Hin) as (df & summary & -> & _ & Hc & _).
  exists df. split; [reflexivity|].
  split; [exact (completed_rows _ _ _ _ _ _ _ _ Hc)|].
  destruct Hc as (c1 & c2 & M & cs & df' & c1' & c2' & Hc).
  destruct Hc as (_ & _ & Hfit & _).
  apply fit_predict_labels in Hfit; [tauto|].
  unfold selected_k. lia.
Qed.

(** C3.  For an N-row two-column matrix and 2 <= K <= N, the engine
    (standardization, then K-Means) returns one cluster id per row, each
    id is below K, and at most K distinct ids occur. *)
Theorem every_row_one_cluster_id
    (X : list point) (k : nat) (random_state : option Z) (np_random : Z) :
  (2 <= k)%nat -> (k <= length X)%nat ->
  exists labels_ cluster_centers_,
    fit_predict k random_state np_random (transform (fit X) X)
    = inr (labels_, cluster_centers_) /\
    length labels_ = length X /\
    Forall (fun id => (id < k)%nat) labels_ /\
    (length (group_keys labels_) <= k)%nat.
Proof.
  intros Hk2 HkN.
  destruct (fit_predict k random_state np_random (transform (fit X) X))
    as [e|[labels cs]] eqn:Hfit.
  { exfalso. unfold fit_predict in Hfit. rewrite transform_length in Hfit.
    destruct (Nat.ltb_spec (length X) k) as [Hlt|_]; [lia|discriminate]. }
  destruct (fit_predict_labels k random_state np_random
              (transform (fit X) X) labels cs) as (_ & _ & Hlen & Hall);
    [lia|exact Hfit|].
  exists labels, cs. split; [reflexivity|].
  split; [now rewrite Hlen, transform_length|].
  split; [exact Hall|].
  apply distinct_below.
  - apply sorted_lt_NoDup, group_keys_sorted.
  - apply Forall_forall. intros id Hin.
    apply (proj1 (group_keys_In _ _)) in Hin.
    rewrite Forall_forall in Hall. now apply Hall.
Qed.

End Policy.

(* ---------------------------------------------------------------- *)
(** ** Further properties of the script *)

(** *** Results are rendered all together or not at all *)

(** X1.  A plot, a summary or an interpretation line is on the page only
    when a file was uploaded and the button was pressed, and then the script
    ended without exception and rendered the sidebar followed by the whole
    results page: one plot, one summary, one line per summary row.  Every
    call that can raise comes before the first result. *)
Theorem results_all_or_nothing
    (up : option DataFrame) (ui : Widgets) (g : Z) (el : element) :
  is_result el = true ->
  In el (rendered (script up ui g)) ->
  exists df fig summary,
    up = Some df /\ run_pressed ui = true /\
    raised (script up ui g) = None /\
    rendered (script up ui g)
    = (sidebar_page (select_dtypes df) (selected_1 df ui)
       ++ results_page fig summary)%list /\
    filter is_result (rendered (script up ui g))
    = (pyplot fig :: dataframe summary
       :: map (fun cm => write (fst cm) (snd cm)) (interpretations summary))%list /\
    length (written (rendered (script up ui g))) = length summary.
Proof.
  intros Hres Hin.
  destruct (script_result_inv up ui g el Hres Hin)
    as (df & fig & summary & -> & Hrun & _ & Heq).
  exists df, fig, summary. rewrite Heq. unfold raised, rendered. cbn [fst snd].
  repeat split; try assumption.
  - rewrite filter_app. unfold results_page. cbn [filter sidebar_page app is_result].
    rewrite filter_app. cbn [filter is_result]. rewrite app_nil_r. f_equal. f_equal.
    induction (interpretations summary) as [|cm l IH]; [reflexivity|].
    cbn [map filter is_result]. now rewrite IH.
  - rewrite written_app, written_results. cbn [sidebar_page written app].
    unfold interpretations. apply length_map.
Qed.

(** *** The two select boxes *)

Lemma selected_Some_In (options : list string) (chosen : nat) (f : string) :
  selected options chosen = Some f -> In f options.
Proof.
  unfold selected. destruct (nth_error options chosen) as [o|] eqn:E.
  - intros H. injection H as <-. eapply nth_error_In; eauto.
  - destruct options as [|o options]; simpl; [discriminate|].
    intros H. injection H as <-. now left.
Qed.

(** X3.  Whenever the second select box yields a feature, the first one
    yields one too, the two names differ, and both are names of int64 or
    float64 columns of the upload. *)
Theorem selected_features_distinct (df : DataFrame) (ui : Widgets) (f2 : string) :
  selected_2 df ui = Some f2 ->
  exists f1,
    selected_1 df ui = Some f1 /\ f1 <> f2 /\
    In f1 (select_dtypes df) /\ In f2 (select_dtypes df).
Proof.
  intros H2. unfold selected_2 in H2. apply selected_Some_In in H2.
  apply filter_In in H2. destruct H2 as [Hin2 Hneq].
  destruct (selected_In (select_dtypes df) (chosen_1 ui)) as (f1 & Hs1 & Hin1).
  { intros E. rewrite E in Hin2. destruct Hin2. }
  fold (selected_1 df ui) in Hs1. exists f1.
  rewrite Hs1 in Hneq. cbn [option_string_eqb] in Hneq.
  repeat split; auto.
  intros ->. rewrite String.eqb_refl in Hneq. discriminate.
Qed.

Lemma filter_other_length (l : list string) (a : string) :
  NoDup l -> In a l ->
  (length (filter (fun f => negb (option_string_eqb (Some f) (Some a))) l) + 1
   = length l)%nat.
Proof.
  cbn [option_string_eqb].
  induction 1 as [|x l Hnin Hnd IH]; intros Hin; [destruct Hin|].
  cbn [filter length]. destruct (String.eqb_spec x a) as [->|Hne]; cbn [negb].
  - assert (Hall : filter (fun f => negb (String.eqb f a)) l = l).
    { clear IH Hin Hnd. induction l as [|y l IHl]; [reflexivity|].
      cbn [filter]. destruct (String.eqb_spec y a) as [->|Hya].
      - exfalso. apply Hnin. now left.
      - cbn [negb]. f_equal. apply IHl. intro H. apply Hnin. now right. }
    rewrite Hall. lia.
  - destruct Hin as [Heq|Hin]; [congruence|].
    cbn [length]. rewrite <- (IH Hin). lia.
Qed.

(** X4.  With distinct column names and at least one numeric column, the
    page starts with the six sidebar controls; the second select box offers
    exactly the numeric columns other than the feature chosen in the first,
    which is one option fewer. *)
Theorem second_box_options (df : DataFrame) (ui : Widgets) (g : Z) :
  NoDup (column_names df) -> select_dtypes df <> [] ->
  exists f1 options rest,
    selected_1 df ui = Some f1 /\
    rendered (script (Some df) ui g)
    = ([ sidebar_header "Clustering Controls";
         sidebar_selectbox "Select Feature 1" (select_dtypes df);
         sidebar_selectbox "Select Feature 2" options;
         sidebar_slider "Number of Clusters (K)" 2 10;
         sidebar_number_input "Random State (Optional)";
         sidebar_button "Run Clustering" ] ++ rest)%list /\
    (length options + 1 = length (select_dtypes df))%nat /\
    (forall f, In f options <-> In f (select_dtypes df) /\ f <> f1).
Proof.
  intros Hnd Hne.
  destruct (selected_In (select_dtypes df) (chosen_1 ui) Hne) as (f1 & Hs1 & Hin1).
  fold (selected_1 df ui) in Hs1.
  exists f1,
    (filter (fun f => negb (option_string_eqb (Some f) (Some f1))) (select_dtypes df)),
    (if run_pressed ui
     then rendered (run_clustering df (selected_1 df ui) (selected_2 df ui)
                      (selected_k ui) (seed_field ui) g)
     else []).
  split; [exact Hs1|]. split; [|split].
  - rewrite script_unfold, Hs1. unfold rendered, sidebar_page.
    destruct (run_pressed ui); cbn [fst app]; reflexivity.
  - apply filter_other_length; [|exact Hin1].
    now apply filter_names_NoDup.
  - intros f. rewrite filter_In. cbn [option_string_eqb].
    destruct (String.eqb_spec f f1) as [->|Hff]; cbn [negb]; intuition congruence.
Qed.

(** *** What the plot and the summary read from the frame *)

(** The columns a completed run clusters, and what it reads back for the
    plot and the summary once the labels are stored under "Cluster". *)
Lemma completed_columns (df : DataFrame) (f1 f2 : option string) (k : nat)
    (seed g : Z) (fig : Figure) (summary : list SummaryRow) :
  completed df f1 f2 k seed g fig summary ->
  exists n1 n2 c1 c2,
    f1 = Some n1 /\ f2 = Some n2 /\
    getitem df (Some n1) = inr c1 /\ getitem df (Some n2) = inr c2 /\
    to_numeric (if String.eqb n1 "Cluster" then Int32 (scatter_c fig) else c1)
    = inr (scatter_x fig) /\
    to_numeric (if String.eqb n2 "Cluster" then Int32 (scatter_c fig) else c2)
    = inr (scatter_y fig) /\
    xlabel fig = f1 /\ ylabel fig = f2.
Proof.
  intros (c1 & c2 & M & cs & df' & c1' & c2' & H).
  destruct H as (Hget & _ & _ & Hset & Hg1 & Hx & Hg2 & Hy & _ & Hxl & Hyl & _).
  destruct (getitem2_inv _ _ _ _ _ Hget) as [H1 H2].
  destruct f1 as [n1|]; [|discriminate]. destruct f2 as [n2|]; [|discriminate].
  exists n1, n2, c1, c2.
  rewrite (getitem_after_setitem _ _ _ _ _ _ Hset H1) in Hg1.
  rewrite (getitem_after_setitem _ _ _ _ _ _ Hset H2) in Hg2.
  injection Hg1 as <-. injection Hg2 as <-.
  repeat split; assumption.
Qed.

(** X5.  When neither selected feature is named "Cluster", the plot shows
    and the summary averages the values of the two uploaded columns as they
    are in the file: the standardized values are used for the clustering
    only. *)
Theorem summary_of_uploaded_values
    (df : DataFrame) (ui : Widgets) (g : Z) (summary : list SummaryRow) :
  NoDup (column_names df) ->
  selected_1 df ui <> Some "Cluster" -> selected_2 df ui <> Some "Cluster" ->
  In (dataframe summary) (rendered (script (Some df) ui g)) ->
  exists fig f1 f2,
    In (pyplot fig) (rendered (script (Some df) ui g)) /\
    selected_1 df ui = Some f1 /\ selected_2 df ui = Some f2 /\
    getitem df (Some f1) = inr (Numeric (scatter_x fig)) /\
    getitem df (Some f2) = inr (Numeric (scatter_y fig)) /\
    summary = agg (scatter_c fig) (scatter_x fig) (scatter_y fig).
Proof.
  intros Hnd Hn1 Hn2 Hin.
  destruct (script_dataframe_inv _ _ _ _ Hin) as (df0 & fig & Hup & _ & Hc & Heq).
  injection Hup as <-.
  destruct (completed_page _ _ _ _ _ Heq) as [Hfig _].
  pose proof (completed_summary _ _ _ _ _ _ _ _ Hc) as Hs.
  destruct (completed_columns _ _ _ _ _ _ _ _ Hc)
    as (n1 & n2 & c1 & c2 & E1 & E2 & H1 & H2 & Hx & Hy & _).
  exists fig, n1, n2.
  assert (Hne1 : String.eqb n1 "Cluster" = false).
  { apply String.eqb_neq. intros ->. now apply Hn1. }
  assert (Hne2 : String.eqb n2 "Cluster" = false).
  { apply String.eqb_neq. intros ->. now apply Hn2. }
  rewrite Hne1 in Hx. rewrite Hne2 in Hy.
  destruct (lookup_numeric (columns df) n1 Hnd) as (v1 & Hl1).
  { unfold selected_1 in E1. now apply selected_Some_In in E1. }
  destruct (lookup_numeric (columns df) n2 Hnd) as (v2 & Hl2).
  { unfold selected_2 in E2. apply selected_Some_In in E2.
    apply filter_In in E2. tauto. }
  unfold getitem in H1, H2 |- *. rewrite Hl1 in H1 |- *. rewrite Hl2 in H2 |- *.
  injection H1 as <-. injection H2 as <-.
  cbn [to_numeric] in Hx, Hy. injection Hx as Hx. injection Hy as Hy.
  rewrite <- Hx, <- Hy. repeat split; try assumption.
  now rewrite Hx, Hy.
Qed.

Lemma group_values_of_ids {A : Type} (f : nat -> A) (c : nat) (ids : list nat) :
  group_values c ids (map f ids) = repeat (f c) (count_occ Nat.eq_dec ids c).
Proof.
  unfold group_values. induction ids as [|a ids IH]; [reflexivity|].
  cbn [map combine filter fst count_occ].
  destruct (Nat.eq_dec a c) as [->|Hne].
  - rewrite Nat.eqb_refl. cbn [map snd repeat]. now rewrite IH.
  - apply Nat.eqb_neq in Hne. rewrite Hne. exact IH.
Qed.

Lemma sum_repeat (x : Q) (n : nat) : Num.sum (repeat x n) == Num.of_nat n * x.
Proof.
  induction n as [|n IH]; cbn [repeat Num.sum fold_right].
  - unfold Num.of_nat. simpl. ring.
  - fold (Num.sum (repeat x n)). rewrite IH, of_nat_S. ring.
Qed.

Lemma mean_repeat (x : Q) (n : nat) : n <> O -> Num.mean (repeat x n) == x.
Proof.
  intros Hn. unfold Num.mean. rewrite sum_repeat, repeat_length.
  field. now apply of_nat_nonzero.
Qed.

(** The mean of the label column over the rows of one cluster is the
    cluster's id. *)
Lemma mean_of_own_ids (c : nat) (ids : list nat) :
  In c ids ->
  Num.mean (group_values c ids (map Num.of_nat ids)) == Num.of_nat c.
Proof.
  intros Hin. rewrite group_values_of_ids. apply mean_repeat.
  pose proof (proj1 (count_occ_In Nat.eq_dec ids c) Hin). lia.
Qed.

(** X6.  When a selected feature is the column named "Cluster", the
    clustering uses its uploaded values, but the summary is computed after
    the labels were stored under that name: the "mean" it reports for that
    feature is, for every cluster, the cluster id itself. *)
Theorem cluster_named_feature_reads_ids
    (df : DataFrame) (ui : Widgets) (g : Z) (summary : list SummaryRow) :
  In (dataframe summary) (rendered (script (Some df) ui g)) ->
  (selected_1 df ui = Some "Cluster" ->
   Forall (fun row => Avg_Feature_1 row == Num.of_nat (Cluster row)) summary) /\
  (selected_2 df ui = Some "Cluster" ->
   Forall (fun row => Avg_Feature_2 row == Num.of_nat (Cluster row)) summary).
Proof.
  intros Hin.
  destruct (script_dataframe_inv _ _ _ _ Hin) as (df0 & fig & Hup & _ & Hc & _).
  injection Hup as <-.
  pose proof (completed_summary _ _ _ _ _ _ _ _ Hc) as Hs.
  destruct (completed_columns _ _ _ _ _ _ _ _ Hc)
    as (n1 & n2 & c1 & c2 & E1 & E2 & _ & _ & Hx & Hy & _).
  split; intros Hsel.
  - rewrite Hsel in E1. injection E1 as <-.
    cbn [String.eqb Ascii.eqb Bool.eqb andb to_numeric] in Hx.
    injection Hx as Hx. rewrite Hs, <- Hx.
    apply Forall_forall. intros row Hrow. unfold agg in Hrow.
    apply in_map_iff in Hrow. destruct Hrow as (c & <- & Hc').
    cbn [Avg_Feature_1 Cluster]. apply mean_of_own_ids.
    now apply (proj1 (group_keys_In _ _)).
  - rewrite Hsel in E2. injection E2 as <-.
    cbn [String.eqb Ascii.eqb Bool.eqb andb to_numeric] in Hy.
    injection Hy as Hy. rewrite Hs, <- Hy.
    apply Forall_forall. intros row Hrow. unfold agg in Hrow.
    apply in_map_iff in Hrow. destruct Hrow as (c & <- & Hc').
    cbn [Avg_Feature_2 Cluster]. apply mean_of_own_ids.
    now apply (proj1 (group_keys_In _ _)).
Qed.

Lemma completed_lengths (df : DataFrame) (f1 f2 : option string) (k : nat)
    (seed g : Z) (fig : Figure) (summary : list SummaryRow) :
  well_formed df -> completed df f1 f2 k seed g fig summary ->
  length (scatter_x fig) = index df /\
  length (scatter_y fig) = index df /\
  length (scatter_c fig) = index df.
Proof.
  intros Hwf Hc.
  pose proof (completed_rows _ _ _ _ _ _ _ _ Hc) as Hrows.
  destruct (completed_columns _ _ _ _ _ _ _ _ Hc)
    as (n1 & n2 & c1 & c2 & E1 & E2 & H1 & H2 & Hx & Hy & _).
  apply to_numeric_length in Hx. apply to_numeric_length in Hy.
  pose proof (getitem_length _ _ _ Hwf H1) as L1.
  pose proof (getitem_length _ _ _ Hwf H2) as L2.
  repeat split; try assumption.
  - rewrite Hx. destruct (String.eqb n1 "Cluster"); [exact Hrows|exact L1].
  - rewrite Hy. destruct (String.eqb n2 "Cluster"); [exact Hrows|exact L2].
Qed.

(** X12.  On an upload whose columns are as long as the index, the plot has
    exactly one point per row of the dataset, with its colour, and its axes
    are labelled with the two selected features. *)
Theorem plot_one_point_per_row
    (df : DataFrame) (ui : Widgets) (g : Z) (fig : Figure) :
  well_formed df ->
  In (pyplot fig) (rendered (script (Some df) ui g)) ->
  length (scatter_x fig) = index df /\
  length (scatter_y fig) = index df /\
  length (scatter_c fig) = index df /\
  xlabel fig = selected_1 df ui /\ ylabel fig = selected_2 df ui.
Proof.
  intros Hwf Hin.
  destruct (script_pyplot_inv _ _ _ _ Hin) as (df0 & summary & Hup & _ & Hc & _).
  injection Hup as <-.
  destruct (completed_lengths _ _ _ _ _ _ _ _ Hwf Hc) as (Lx & Ly & Lc).
  destruct (completed_columns _ _ _ _ _ _ _ _ Hc)
    as (n1 & n2 & c1 & c2 & _ & _ & _ & _ & _ & _ & Hxl & Hyl).
  repeat split; assumption.
Qed.

(** *** The summary table as a whole *)

Lemma fit_predict_rows (k : nat) (random_state : option Z) (g : Z)
    (X : list point) (labels_ : list nat) (cluster_centers_ : list point) :
  fit_predict k random_state g X = inr (labels_, cluster_centers_) ->
  (k <= length X)%nat /\ length labels_ = length X.
Proof.
  unfold fit_predict.
  destruct (Nat.ltb_spec (length X) k) as [Hlt|Hge]; [discriminate|].
  intros H. injection H as <- _. split; [exact Hge|apply assign_length].
Qed.

(** A summary on a page has at least one row, and the dataset at least as
    many rows as the chosen K. *)
Lemma completed_nonempty (df : DataFrame) (ui : Widgets) (g : Z)
    (fig : Figure) (summary : list SummaryRow) :
  completed df (selected_1 df ui) (selected_2 df ui) (selected_k ui)
            (seed_field ui) g fig summary ->
  summary <> [] /\ (selected_k ui <= index df)%nat.
Proof.
  intros Hc.
  pose proof (completed_summary _ _ _ _ _ _ _ _ Hc) as Hs.
  pose proof (completed_rows _ _ _ _ _ _ _ _ Hc) as Hrows.
  destruct Hc as (c1 & c2 & M & cs & df' & c1' & c2' & Hc).
  destruct Hc as (_ & _ & Hfit & _).
  apply fit_predict_rows in Hfit. destruct Hfit as [Hk Hlen].
  assert (H2 : (2 <= selected_k ui)%nat) by (unfold selected_k; lia).
  split; [|lia].
  destruct (scatter_c fig) as [|id ids] eqn:E; [simpl in Hlen; lia|].
  intros Hnil. rewrite Hs in Hnil. apply (f_equal (map Cluster)) in Hnil.
  rewrite agg_Cluster in Hnil.
  assert (Hin : In id (group_keys (id :: ids))) by (apply group_keys_In; now left).
  rewrite Hnil in Hin. destruct Hin.
Qed.

(** X10.  With an initialisation that returns K centroids, every summary on
    a page has at least one row and at most K rows, where K is the slider's
    value between 2 and 10, and the dataset has at least K rows. *)
Theorem summary_size_bounds
    (up : option DataFrame) (ui : Widgets) (g : Z) (summary : list SummaryRow) :
  (forall (rng : Z) (k : nat) (X : list point),
      (k <= length X)%nat -> length (init rng k X) = k) ->
  In (dataframe summary) (rendered (script up ui g)) ->
  exists df,
    up = Some df /\
    (1 <= length summary <= selected_k ui)%nat /\
    (2 <= selected_k ui <= 10)%nat /\
    (selected_k ui <= index df)%nat.
Proof.
  intros Hinit Hin.
  destruct (script_dataframe_inv _ _ _ _ Hin) as (df & fig & -> & _ & Hc & _).
  exists df. split; [reflexivity|].
  destruct (completed_nonempty _ _ _ _ _ Hc) as [Hne Hk].
  pose proof (completed_summary _ _ _ _ _ _ _ _ Hc) as Hs.
  assert (Hall : Forall (fun id => (id < selected_k ui)%nat) (scatter_c fig)).
  { destruct Hc as (c1 & c2 & M & cs & df' & c1' & c2' & Hc).
    destruct Hc as (_ & _ & Hfit & _).
    apply (fit_predict_labels Hinit) in Hfit; [tauto|unfold selected_k; lia]. }
  split; [split|split].
  - destruct summary; [congruence|simpl; lia].
  - rewrite <- (length_map Cluster), Hs, agg_Cluster.
    apply distinct_below.
    + apply sorted_lt_NoDup, group_keys_sorted.
    + apply Forall_forall. intros id Hid.
      apply (proj1 (group_keys_In _ _)) in Hid.
      rewrite Forall_forall in Hall. now apply Hall.
  - unfold selected_k. lia.
  - exact Hk.
Qed.

Lemma mean_singleton (a : Q) : Num.mean [a] == a.
Proof.
  unfold Num.mean, Num.sum. cbn [fold_right length].
  change (Num.of_nat 1) with 1. field.
Qed.

Lemma gtb_irrefl (a b : Q) : a == b -> Num.gtb a b = false.
Proof.
  intros H. unfold Num.gtb. apply Qeq_alt in H. now rewrite H.
Qed.

Lemma ltb_irrefl (a b : Q) : a == b -> Num.ltb a b = false.
Proof.
  intros H. unfold Num.ltb. apply Qeq_alt in H. now rewrite H.
Qed.

(** X8.  When the summary on a page has a single row (every row of the
    dataset fell in one cluster), the page has exactly one interpretation
    line, for that cluster, and it is the "Moderate spenders" one: the mean
    of a one-row column is its value, which is neither above nor below
    itself. *)
Theorem single_cluster_is_moderate
    (up : option DataFrame) (ui : Widgets) (g : Z) (row : SummaryRow) :
  In (dataframe [row]) (rendered (script up ui g)) ->
  written (rendered (script up ui g)) = [(Cluster row, moderate)].
Proof.
  intros Hin.
  destruct (script_dataframe_inv _ _ _ _ Hin) as (df & fig & -> & _ & _ & Heq).
  destruct (completed_page _ _ _ _ _ Heq) as [_ Hw].
  rewrite Hw. unfold interpretations, interpretation. cbn [map].
  rewrite (gtb_irrefl _ _ (Qeq_sym _ _ (mean_singleton (Avg_Feature_1 row)))).
  rewrite (ltb_irrefl _ _ (Qeq_sym _ _ (mean_singleton (Avg_Feature_1 row)))).
  reflexivity.
Qed.

End Dashboard.

(* ------------------------------------------------------------------ *)
(** ** The reference policy *)

Lemma rotate_length {A : Type} (n : nat) (l : list A) :
  length (Reference.rotate n l) = length l.
Proof.
  revert l. induction n as [|n IH]; intros l; simpl; [reflexivity|].
  destruct l as [|a rest]; [reflexivity|].
  rewrite IH, length_app. simpl. lia.
Qed.

Lemma reference_init_length (rng : Z) (k : nat) (X : list point) :
  (k <= length X)%nat -> length (Reference.init rng k X) = k.
Proof.
  intros H. unfold Reference.init.
  rewrite length_firstn, rotate_length. lia.
Qed.


Ltac find_element := repeat first [ left; reflexivity | right ].

Ltac solve_well_formed :=
  split;
  [ repeat constructor; simpl; intuition discriminate
  | repeat constructor ].

(* ------------------------------------------------------------------ *)
(** ** The specification's scenarios on the reference policy *)

(** The end-to-end scenario: two clusters of three rows, the low-value group
    budget-conscious, the high-value group high-spending. *)
Example six_customers_scenario :
  let run := script Reference.sqrt Reference.init Reference.max_iter
               (Some Examples.customers) Examples.widgets 0 in
  raised run = None /\
  assignments (rendered run) = Some [0; 0; 0; 1; 1; 1]%nat /\
  map Count (shown_summary (rendered run)) = [3; 3]%nat /\
  written (rendered run) = [(0%nat, budget_conscious); (1%nat, high_spending)].
Proof. vm_compute. repeat split; reflexivity. Qed.

(** A cluster id no row is assigned to has no summary row and no
    interpretation line. *)
Example empty_cluster_omitted :
  let run := script Reference.sqrt Reference.init Reference.max_iter
               (Some Examples.twins) Examples.widgets_3 0 in
  selected_k Examples.widgets_3 = 3%nat /\
  assignments (rendered run) = Some [0; 0; 2]%nat /\
  map Cluster (shown_summary (rendered run)) = [0; 2]%nat /\
  map Count (shown_summary (rendered run)) = [2; 1]%nat /\
  map fst (written (rendered run)) = [0; 2]%nat.
Proof. vm_compute. repeat split; reflexivity. Qed.

(** Classification precedence on a synthetic summary: above on both features
    is high-spending, below on both is budget-conscious. *)
Example two_cluster_labels :
  interpretations Examples.two_cluster_summary
  = [(0%nat, high_spending); (1%nat, budget_conscious)].
Proof. reflexivity. Qed.

(** A tie on one feature is moderate: with the same number of visits for
    everybody, both clusters are moderate whatever their spend. *)
Example tie_is_moderate :
  let run := script Reference.sqrt Reference.init Reference.max_iter
               (Some Examples.same_visits) Examples.widgets 0 in
  assignments (rendered run) = Some [0; 0; 0; 1]%nat /\
  map (fun row => Qred (Avg_Feature_2 row)) (shown_summary (rendered run))
  = [5; 5] /\
  written (rendered run) = [(0%nat, moderate); (1%nat, moderate)].
Proof. vm_compute. repeat split; reflexivity. Qed.

(** A feature named "Cluster" is clustered on its uploaded values, but the
    summary reads the column back after the labels were stored under that
    name: its per-cluster "mean" is the cluster id, not the mean of the
    uploaded values (14/3 and 14 here). *)
Example feature_named_Cluster_reads_labels :
  let run := script Reference.sqrt Reference.init Reference.max_iter
               (Some Examples.relabelled) Examples.widgets 0 in
  selected_1 Examples.relabelled Examples.widgets = Some "Cluster" /\
  assignments (rendered run) = Some [0; 0; 0; 1]%nat /\
  map (fun row => Qred (Avg_Feature_1 row)) (shown_summary (rendered run))
  = [0; 1] /\
  map (fun c => Qred (Num.mean (group_values c [0; 0; 0; 1]%nat [0; 6; 8; 14])))
      [0; 1]%nat
  = [14 # 3; 14].
Proof. vm_compute. repeat split; reflexivity. Qed.

(** The mean of the cluster means is not the row-weighted mean: with three
    rows at 0 in one cluster and one row at 4 in another, the first is 2 and
    the second is 1. *)
Example cluster_means_not_row_weighted :
  mean_of_cluster_means Examples.uneven_ids Examples.uneven_vals == 2 /\
  row_weighted_mean Examples.uneven_vals == 1 /\
  ~ mean_of_cluster_means Examples.uneven_ids Examples.uneven_vals
    == row_weighted_mean Examples.uneven_vals.
Proof. vm_compute. repeat split; try reflexivity. discriminate. Qed.

(** Another seed may label the same partition differently. *)
Example other_seed_other_labels :
  assignments
    (rendered (script Reference.sqrt Reference.init Reference.max_iter
                 (Some Examples.shoppers) Examples.widgets 0))
  = Some [0; 0; 0; 1]%nat /\
  assignments
    (rendered (script Reference.sqrt Reference.init Reference.max_iter
                 (Some Examples.shoppers)
                 {| chosen_1 := 0; chosen_2 := 0; slider_position := 2;
                    seed_field := 3; run_pressed := true |} 0))
  = Some [1; 1; 0; 0]%nat.
Proof. vm_compute. split; reflexivity. Qed.

(** Without a seed the engine draws from the process-wide generator, and its
    result depends on that generator's state. *)
Example unseeded_depends_on_generator :
  fit_predict Reference.init Reference.max_iter 2 None 0 Examples.matrix
  <> fit_predict Reference.init Reference.max_iter 2 None 3 Examples.matrix.
Proof. vm_compute. discriminate. Qed.

(* ------------------------------------------------------------------ *)
(** ** The theorems at concrete inputs *)


(** C2 on the four shoppers. *)
Lemma interpretation_precedence_witness :
  let page := rendered (script Reference.sqrt Reference.init Reference.max_iter
                          (Some Examples.shoppers) Examples.widgets 0) in
  let summary := shown_summary page in
  In (dataframe summary) page /\
  written page = interpretations summary /\
  forall row, In row summary ->
    let a1 := Avg_Feature_1 row in
    let a2 := Avg_Feature_2 row in
    let g1 := Num.mean (map Avg_Feature_1 summary) in
    let g2 := Num.mean (map Avg_Feature_2 summary) in
    let msg := snd (interpretation summary row) in
    fst (interpretation summary row) = Cluster row /\
    (g1 < a1 /\ g2 < a2 -> msg = high_spending) /\
    (~ (g1 < a1 /\ g2 < a2) -> a1 < g1 /\ a2 < g2 -> msg = budget_conscious) /\
    (~ (g1 < a1 /\ g2 < a2) -> ~ (a1 < g1 /\ a2 < g2) -> msg = moderate) /\
    (g1 < a1 -> a2 == g2 -> msg = moderate).
Proof.
  cbv zeta.
  match goal with
  | |- ?H /\ _ => assert (Hin : H) by (vm_compute; find_element)
  end.
  split; [exact Hin|].
  exact (interpretation_precedence
             Reference.sqrt Reference.init Reference.max_iter
             (Some Examples.shoppers) Examples.widgets 0 _ Hin).
Defined.

(** C3 on the shoppers' matrix, K = 2, with the reference policy. *)
Lemma every_row_one_cluster_id_witness :
  (2 <= 2)%nat /\ (2 <= length Examples.matrix)%nat /\
  exists labels_ cluster_centers_,
    fit_predict Reference.init Reference.max_iter 2 (Some 42%Z) 0
      (transform (fit Reference.sqrt Examples.matrix) Examples.matrix)
    = inr (labels_, cluster_centers_) /\
    length labels_ = length Examples.matrix /\
    Forall (fun id => (id < 2)%nat) labels_ /\
    (length (group_keys labels_) <= 2)%nat.
Proof.
  split; [lia|]. split; [simpl; lia|].
  apply (every_row_one_cluster_id Reference.sqrt Reference.init
           Reference.max_iter reference_init_length
           Examples.matrix 2 (Some 42%Z) 0).
  - lia.
  - simpl. lia.
Defined.

(** C4 on the four shoppers: other stored widget positions and another
    state of the process-wide generator, same page. *)
Lemma same_inputs_same_assignments_witness :
  (forall df, Some Examples.shoppers = Some df ->
              selected_1 df Examples.widgets = selected_1 df Examples.widgets_stale /\
              selected_2 df Examples.widgets = selected_2 df Examples.widgets_stale) /\
  selected_k Examples.widgets = selected_k Examples.widgets_stale /\
  seed_field Examples.widgets = seed_field Examples.widgets_stale /\
  run_pressed Examples.widgets = run_pressed Examples.widgets_stale /\
  script Reference.sqrt Reference.init Reference.max_iter
    (Some Examples.shoppers) Examples.widgets 0
  = script Reference.sqrt Reference.init Reference.max_iter
      (Some Examples.shoppers) Examples.widgets_stale 99 /\
  assignments (rendered (script Reference.sqrt Reference.init Reference.max_iter
                           (Some Examples.shoppers) Examples.widgets 0))
  = assignments (rendered (script Reference.sqrt Reference.init Reference.max_iter
                             (Some Examples.shoppers) Examples.widgets_stale 99)).
Proof.
  assert (Hf : forall df, Some Examples.shoppers = Some df ->
             selected_1 df Examples.widgets = selected_1 df Examples.widgets_stale /\
             selected_2 df Examples.widgets = selected_2 df Examples.widgets_stale).
  { intros df H. injection H as <-. split; reflexivity. }
  split; [exact Hf|].
  split; [reflexivity|]. split; [reflexivity|]. split; [reflexivity|].
  apply (same_inputs_same_assignments Reference.sqrt Reference.init
           Reference.max_iter (Some Examples.shoppers)
           Examples.widgets Examples.widgets_stale 0 99 Hf);
    reflexivity.
Defined.

(** C5 on the shoppers' two columns. *)
Lemma standardization_witness :
  to_numeric (Numeric Examples.spend) = inr Examples.spend /\
  to_numeric (Numeric Examples.visits) = inr Examples.visits /\
  length Examples.spend = length Examples.visits /\
  exists scaler,
    fit_transform Reference.sqrt (Numeric Examples.spend, Numeric Examples.visits)
    = inr (scaler,
           combine (standardize_column Reference.sqrt Examples.spend)
                   (standardize_column Reference.sqrt Examples.visits)) /\
    mean_ scaler = (Num.mean Examples.spend, Num.mean Examples.visits) /\
    scale_ scaler = (Reference.sqrt (population_variance Examples.spend),
                     Reference.sqrt (population_variance Examples.visits)) /\
    length (combine (standardize_column Reference.sqrt Examples.spend)
                    (standardize_column Reference.sqrt Examples.visits))
    = length Examples.spend.
Proof.
  split; [reflexivity|]. split; [reflexivity|]. split; [reflexivity|].
  apply (standardization_is_population_zscore Reference.sqrt
           (Numeric Examples.spend) (Numeric Examples.visits)
           Examples.spend Examples.visits); reflexivity.
Defined.


(** The standard deviations of the example are not zero, so that any point
    comes back from the round trip ([inverse_transform_transform]). *)
Example shoppers_scales_nonzero :
  ~ std Reference.sqrt Examples.spend == 0 /\
  ~ std Reference.sqrt Examples.visits == 0.
Proof. vm_compute. split; discriminate. Qed.

(** A constant column: its standard deviation is zero, the run completes,
    the standardized column is zero throughout and both centers are plotted
    at the column's value. *)
Example constant_column_centers :
  let run := script Reference.sqrt Reference.init Reference.max_iter
               (Some Examples.same_visits) Examples.widgets 0 in
  let fig := shown_figure (rendered run) in
  let M := combine [0; 6; 8; 14] [5; 5; 5; 5] in
  raised run = None /\
  In (pyplot fig) (rendered run) /\
  std Reference.sqrt (map snd M) == 0 /\
  map (fun p => Qred (snd p)) (transform (fit Reference.sqrt M) M)
  = [0; 0; 0; 0] /\
  map (fun c => Qred (snd c)) (centers fig) = [5; 5].
Proof.
  cbv zeta. split; [reflexivity|]. split; [vm_compute; find_element|].
  vm_compute. repeat split; reflexivity.
Qed.

(** C7 on the four shoppers. *)
Lemma summary_counts_total_witness :
  let page := rendered (script Reference.sqrt Reference.init Reference.max_iter
                          (Some Examples.shoppers) Examples.widgets 0) in
  let summary := shown_summary page in
  In (dataframe summary) page /\
  exists df, Some Examples.shoppers = Some df /\
             list_sum (map Count summary) = index df.
Proof.
  cbv zeta.
  match goal with
  | |- ?H /\ _ => assert (Hin : H) by (vm_compute; find_element)
  end.
  split; [exact Hin|].
  exact (summary_counts_total
             Reference.sqrt Reference.init Reference.max_iter
             (Some Examples.shoppers) Examples.widgets 0 _ Hin).
Defined.

(** C8 on a single customer and K = 2. *)
Lemma too_many_clusters_witness :
  let run := script Reference.sqrt Reference.init Reference.max_iter
               (Some Examples.single_customer) Examples.widgets 0 in
  well_formed Examples.single_customer /\
  run_pressed Examples.widgets = true /\
  (index Examples.single_customer < selected_k Examples.widgets)%nat /\
  exists e,
    raised run = Some e /\
    rendered run
    = sidebar_page (select_dtypes Examples.single_customer)
                   (selected_1 Examples.single_customer Examples.widgets) /\
    Forall (fun el => is_result el = false) (rendered run) /\
    ((2 <= length (select_dtypes Examples.single_customer))%nat ->
     e = ValueError "n_samples should be >= n_clusters").
Proof.
  cbv zeta.
  assert (Hwf : well_formed Examples.single_customer) by solve_well_formed.
  assert (Hk : (index Examples.single_customer < selected_k Examples.widgets)%nat)
    by (vm_compute; lia).
  split; [exact Hwf|]. split; [reflexivity|]. split; [exact Hk|].
  exact (too_many_clusters_fails Reference.sqrt Reference.init Reference.max_iter
           Examples.single_customer Examples.widgets 0 Hwf eq_refl Hk).
Defined.

(** C9 (as the code has it) on an upload with one numeric column. *)
Lemma too_few_numeric_columns_witness :
  let run := script Reference.sqrt Reference.init Reference.max_iter
               (Some Examples.one_numeric) Examples.widgets 0 in
  (length (select_dtypes Examples.one_numeric) < 2)%nat /\
  filter (fun f => negb (option_string_eqb (Some f)
                           (selected_1 Examples.one_numeric Examples.widgets)))
         (select_dtypes Examples.one_numeric) = [] /\
  selected_2 Examples.one_numeric Examples.widgets = None /\
  rendered run
  = sidebar_page (select_dtypes Examples.one_numeric)
                 (selected_1 Examples.one_numeric Examples.widgets) /\
  raised run
  = (if run_pressed Examples.widgets
     then Some (KeyError (filter (is_missing Examples.one_numeric)
                            [selected_1 Examples.one_numeric Examples.widgets; None]))
     else None) /\
  In None (filter (is_missing Examples.one_numeric)
             [selected_1 Examples.one_numeric Examples.widgets; None]).
Proof.
  cbv zeta.
  assert (H : (length (select_dtypes Examples.one_numeric) < 2)%nat)
    by (vm_compute; lia).
  split; [exact H|].
  exact (too_few_numeric_columns Reference.sqrt Reference.init Reference.max_iter
           Examples.one_numeric Examples.widgets 0 H).
Defined.

(** C9 as stated fails: on a well-formed upload with a single numeric column
    no message is shown, both select boxes and the button are rendered, and
    pressing the button ends the script with an uncaught KeyError. *)
Lemma few_numeric_columns_crash :
  let run := script Reference.sqrt Reference.init Reference.max_iter
               (Some Examples.one_numeric) Examples.widgets 0 in
  well_formed Examples.one_numeric /\
  length (select_dtypes Examples.one_numeric) = 1%nat /\
  raised run = Some (KeyError [None]) /\
  rendered run
  = [ sidebar_header "Clustering Controls";
      sidebar_selectbox "Select Feature 1" ["spend"];
      sidebar_selectbox "Select Feature 2" [];
      sidebar_slider "Number of Clusters (K)" 2 10;
      sidebar_number_input "Random State (Optional)";
      sidebar_button "Run Clustering" ].
Proof.
  cbv zeta. split; [solve_well_formed|].
  vm_compute. repeat split; reflexivity.
Defined.

(** C10 on the twins, where K = 3 and cluster 1 stays empty. *)
Lemma summary_rows_witness :
  let page := rendered (script Reference.sqrt Reference.init Reference.max_iter
                          (Some Examples.twins) Examples.widgets_3 0) in
  let summary := shown_summary page in
  In (dataframe summary) page /\
  exists fig,
    In (pyplot fig) page /\
    StronglySorted lt (map Cluster summary) /\
    (forall c, In c (map Cluster summary) <-> In c (scatter_c fig)) /\
    Forall (fun row =>
              Count row = count_occ Nat.eq_dec (scatter_c fig) (Cluster row) /\
              (0 < Count row)%nat) summary /\
    map fst (written page) = map Cluster summary.
Proof.
  cbv zeta.
  match goal with
  | |- ?H /\ _ => assert (Hin : H) by (vm_compute; find_element)
  end.
  split; [exact Hin|].
  exact (summary_rows_populated_ascending
             Reference.sqrt Reference.init Reference.max_iter
             (Some Examples.twins) Examples.widgets_3 0 _ Hin).
Defined.

(* ------------------------------------------------------------------ *)
(** ** The further properties at concrete inputs *)

(** X1 on the four shoppers, for the summary on the page. *)
Lemma results_all_or_nothing_witness :
  let run := script Reference.sqrt Reference.init Reference.max_iter
               (Some Examples.shoppers) Examples.widgets 0 in
  let el := dataframe (shown_summary (rendered run)) in
  is_result el = true /\
  In el (rendered run) /\
  exists df fig summary,
    Some Examples.shoppers = Some df /\ run_pressed Examples.widgets = true /\
    raised run = None /\
    rendered run
    = (sidebar_page (select_dtypes df) (selected_1 df Examples.widgets)
       ++ results_page fig summary)%list /\
    filter is_result (rendered run)
    = (pyplot fig :: dataframe summary
       :: map (fun cm => write (fst cm) (snd cm)) (interpretations summary))%list /\
    length (written (rendered run)) = length summary.
Proof.
  cbv zeta. split; [reflexivity|].
  match goal with
  | |- ?H /\ _ => assert (Hin : H) by (vm_compute; find_element)
  end.
  split; [exact Hin|].
  exact (results_all_or_nothing Reference.sqrt Reference.init Reference.max_iter
           (Some Examples.shoppers) Examples.widgets 0
           (dataframe _) eq_refl Hin).
Defined.

(** X3 on the four shoppers. *)
Lemma selected_features_distinct_witness :
  selected_2 Examples.shoppers Examples.widgets = Some "visits" /\
  exists f1,
    selected_1 Examples.shoppers Examples.widgets = Some f1 /\ f1 <> "visits" /\
    In f1 (select_dtypes Examples.shoppers) /\
    In "visits" (select_dtypes Examples.shoppers).
Proof.
  split; [reflexivity|].
  exact (selected_features_distinct Examples.shoppers Examples.widgets "visits"
           eq_refl).
Defined.

(** X4 on the four shoppers. *)
Lemma second_box_options_witness :
  NoDup (column_names Examples.shoppers) /\
  select_dtypes Examples.shoppers <> [] /\
  exists f1 options rest,
    selected_1 Examples.shoppers Examples.widgets = Some f1 /\
    rendered (script Reference.sqrt Reference.init Reference.max_iter
                (Some Examples.shoppers) Examples.widgets 0)
    = ([ sidebar_header "Clustering Controls";
         sidebar_selectbox "Select Feature 1" (select_dtypes Examples.shoppers);
         sidebar_selectbox "Select Feature 2" options;
         sidebar_slider "Number of Clusters (K)" 2 10;
         sidebar_number_input "Random State (Optional)";
         sidebar_button "Run Clustering" ] ++ rest)%list /\
    (length options + 1 = length (select_dtypes Examples.shoppers))%nat /\
    (forall f, In f options <-> In f (select_dtypes Examples.shoppers) /\ f <> f1).
Proof.
  assert (Hwf : well_formed Examples.shoppers) by solve_well_formed.
  assert (Hne : select_dtypes Examples.shoppers <> []) by discriminate.
  split; [exact (proj1 Hwf)|]. split; [exact Hne|].
  exact (second_box_options Reference.sqrt Reference.init Reference.max_iter
           Examples.shoppers Examples.widgets 0 (proj1 Hwf) Hne).
Defined.

(** X5 on the four shoppers. *)
Lemma summary_of_uploaded_values_witness :
  let page := rendered (script Reference.sqrt Reference.init Reference.max_iter
                          (Some Examples.shoppers) Examples.widgets 0) in
  let summary := shown_summary page in
  NoDup (column_names Examples.shoppers) /\
  selected_1 Examples.shoppers Examples.widgets <> Some "Cluster" /\
  selected_2 Examples.shoppers Examples.widgets <> Some "Cluster" /\
  In (dataframe summary) page /\
  exists fig f1 f2,
    In (pyplot fig) page /\
    selected_1 Examples.shoppers Examples.widgets = Some f1 /\
    selected_2 Examples.shoppers Examples.widgets = Some f2 /\
    getitem Examples.shoppers (Some f1) = inr (Numeric (scatter_x fig)) /\
    getitem Examples.shoppers (Some f2) = inr (Numeric (scatter_y fig)) /\
    summary = agg (scatter_c fig) (scatter_x fig) (scatter_y fig).
Proof.
  cbv zeta.
  assert (Hwf : well_formed Examples.shoppers) by solve_well_formed.
  assert (H1 : selected_1 Examples.shoppers Examples.widgets <> Some "Cluster")
    by discriminate.
  assert (H2 : selected_2 Examples.shoppers Examples.widgets <> Some "Cluster")
    by discriminate.
  split; [exact (proj1 Hwf)|]. split; [exact H1|]. split; [exact H2|].
  match goal with
  | |- ?H /\ _ => assert (Hin : H) by (vm_compute; find_element)
  end.
  split; [exact Hin|].
  exact (summary_of_uploaded_values Reference.sqrt Reference.init
           Reference.max_iter Examples.shoppers Examples.widgets 0 _
           (proj1 Hwf) H1 H2 Hin).
Defined.

(** X6 on the upload that has a numeric column named "Cluster". *)
Lemma cluster_named_feature_witness :
  let page := rendered (script Reference.sqrt Reference.init Reference.max_iter
                          (Some Examples.relabelled) Examples.widgets 0) in
  let summary := shown_summary page in
  In (dataframe summary) page /\
  (selected_1 Examples.relabelled Examples.widgets = Some "Cluster" ->
   Forall (fun row => Avg_Feature_1 row == Num.of_nat (Cluster row)) summary) /\
  (selected_2 Examples.relabelled Examples.widgets = Some "Cluster" ->
   Forall (fun row => Avg_Feature_2 row == Num.of_nat (Cluster row)) summary).
Proof.
  cbv zeta.
  match goal with
  | |- ?H /\ _ => assert (Hin : H) by (vm_compute; find_element)
  end.
  split; [exact Hin|].
  exact (cluster_named_feature_reads_ids Reference.sqrt Reference.init
           Reference.max_iter Examples.relabelled Examples.widgets 0 _ Hin).
Defined.

(** X10 on the twins with the reference policy: K = 3, two summary rows. *)
Lemma summary_size_bounds_witness :
  let page := rendered (script Reference.sqrt Reference.init Reference.max_iter
                          (Some Examples.twins) Examples.widgets_3 0) in
  let summary := shown_summary page in
  In (dataframe summary) page /\
  exists df,
    Some Examples.twins = Some df /\
    (1 <= length summary <= selected_k Examples.widgets_3)%nat /\
    (2 <= selected_k Examples.widgets_3 <= 10)%nat /\
    (selected_k Examples.widgets_3 <= index df)%nat.
Proof.
  cbv zeta.
  match goal with
  | |- ?H /\ _ => assert (Hin : H) by (vm_compute; find_element)
  end.
  split; [exact Hin|].
  exact (summary_size_bounds Reference.sqrt Reference.init Reference.max_iter
           (Some Examples.twins) Examples.widgets_3 0 _
           reference_init_length Hin).
Defined.

(** X12 on the four shoppers. *)
Lemma plot_one_point_per_row_witness :
  let page := rendered (script Reference.sqrt Reference.init Reference.max_iter
                          (Some Examples.shoppers) Examples.widgets 0) in
  let fig := shown_figure page in
  well_formed Examples.shoppers /\
  In (pyplot fig) page /\
  length (scatter_x fig) = index Examples.shoppers /\
  length (scatter_y fig) = index Examples.shoppers /\
  length (scatter_c fig) = index Examples.shoppers /\
  xlabel fig = selected_1 Examples.shoppers Examples.widgets /\
  ylabel fig = selected_2 Examples.shoppers Examples.widgets.
Proof.
  cbv zeta.
  assert (Hwf : well_formed Examples.shoppers) by solve_well_formed.
  split; [exact Hwf|].
  match goal with
  | |- ?H /\ _ => assert (Hin : H) by (vm_compute; find_element)
  end.
  split; [exact Hin|].
  exact (plot_one_point_per_row Reference.sqrt Reference.init Reference.max_iter
           Examples.shoppers Examples.widgets 0 _ Hwf Hin).
Defined.

(** X8 on two identical customers, K = 2: both fall in cluster 0. *)
Lemma single_cluster_witness :
  let page := rendered (script Reference.sqrt Reference.init Reference.max_iter
                          (Some Examples.identical) Examples.widgets 0) in
  let row := hd {| Cluster := 0; Count := 0;
                   Avg_Feature_1 := 0; Avg_Feature_2 := 0 |}
                (shown_summary page) in
  In (dataframe [row]) page /\
  written page = [(Cluster row, moderate)].
Proof.
  cbv zeta.
  match goal with
  | |- ?H /\ _ => assert (Hin : H) by (vm_compute; find_element)
  end.
  split; [exact Hin|].
  exact (single_cluster_is_moderate
           Reference.sqrt Reference.init Reference.max_iter
           (Some Examples.identical) Examples.widgets 0 _ Hin).
Defined.
